(** * The sensor pipeline of [src/data_processing.py]

    A shallow embedding of [ingest_data], [detect_anomalies] and
    [summarize_metrics], and the properties of the specification that
    can be stated about them.

    Modelling decisions.
    - A pandas cell is a [Cell]; a float cell is an IEEE binary64 number
      (Rocq's primitive [float]), so that [NaN] is the missing value of a
      float column and arithmetic on it behaves as in numpy.  [CNull] is
      [None]/[NaN]/[NaT] of an object or datetime column.
    - A row is a finite map from column names to cells and a frame is its
      list of column names with its list of rows.  Columns carry the
      kinds of cells the schema gives them (times in [timestamp], floats
      in [value]); the dtype errors pandas raises on columns of another
      dtype are outside the model, but for the [.str] accessor, whose
      refusal of a column is part of the interface below.
    - What pandas, numpy and Python compute by algorithms the source does
      not contain (date parsing, sorting, quantiles, mean and standard
      deviation, rolling statistics, the check of the [.str] accessor,
      [str.upper], the text of a formatted float) is an interface, the
      class [Pandas], with the part of the library contract that the
      proofs rely on; [Simple.pandas] is an executable instance, on which
      the functions are run on concrete frames.
    - The format specification of an f-string is read as Python reads
      it, by [parse_format_spec]: the one of the source, [.2f] followed
      by a space, is refused, so that the statement that formats the
      share of [BAD] readings raises [ValueError].
    - Python exceptions are the [Raise] results of the monad [Py], whose
      state holds the frames that live on the heap and the lines printed.
      A frame variable of the source is a reference into that heap, so
      that the in-place assignments [df[c] = ...] and the copies are told
      apart. *)

From Stdlib Require Import Floats ZArith Uint63 String Ascii.
From stdpp Require Import gmap strings list pretty.

#[local] Set Warnings "-inexact-float".

(** ** Cells, rows and frames *)

Inductive Cell : Type :=
| CNull
| CTime (t : Z)
| CStr (s : string)
| CNum (x : float)
| CBool (b : bool).

Abbreviation Row := (gmap string Cell).

Record DataFrame : Type := mkDF { columns : list string; rows : list Row }.

Global Instance DataFrame_inhabited : Inhabited DataFrame := populate (mkDF [] []).

(** [row[c]]: a cell the row does not hold reads as missing. *)
Definition cell (r : Row) (c : string) : Cell := default CNull (r !! c).

(** [pd.isna] on one cell. *)
Definition isna (c : Cell) : bool :=
  match c with
  | CNull => true
  | CNum x => is_nan x
  | _ => false
  end.

(** Equality of cells as [drop_duplicates] and [merge] see it: missing
    values are equal to each other, floats are compared with [==]. *)
Definition cell_eqb (a b : Cell) : bool :=
  match a, b with
  | CTime x, CTime y => (x =? y)%Z
  | CStr x, CStr y => String.eqb x y
  | CBool x, CBool y => Bool.eqb x y
  | CNum x, CNum y => (x =? y)%float || (is_nan x && is_nan y)
  | _, _ => isna a && isna b
  end.

Definition row_eqb (cols : list string) (r1 r2 : Row) : bool :=
  forallb (λ c, cell_eqb (cell r1 c) (cell r2 c)) cols.

(** The float held by a cell of a numeric column. *)
Definition num (c : Cell) : float :=
  match c with
  | CNum x => x
  | _ => nan
  end.

Definition float_of_nat (n : nat) : float :=
  PrimFloat.of_uint63 (Uint63.of_Z (Z.of_nat n)).

(** ** Exceptions and the monad of Python code *)

Inductive PyErr : Type :=
| ValueError (msg : string)
| KeyError (key : string)
| AttributeError (msg : string)
| MergeError
| NotImplementedError (msg : string).

Inductive Result (A : Type) : Type :=
| Ok (a : A)
| Raise (e : PyErr).
Arguments Ok {A} a.
Arguments Raise {A} e.

Global Instance Result_ret : MRet Result := λ A a, Ok a.
Global Instance Result_bind : MBind Result := λ A B k r,
  match r with
  | Ok a => k a
  | Raise e => Raise e
  end.

(** A printed line: the only [print] of the source prints the share of
    [BAD] readings, as the text its format specification gives. *)
Inductive Line : Type :=
| BatchEvaluation (bad_percentage : string).

Record Store : Type := mkStore { frames : gmap nat DataFrame; stdout : list Line }.

Definition Py (A : Type) : Type := Store → Result (A * Store).

Global Instance Py_ret : MRet Py := λ A a st, Ok (a, st).
Global Instance Py_bind : MBind Py := λ A B k m st,
  match m st with
  | Ok (a, st') => k a st'
  | Raise e => Raise e
  end.

Definition raise {A} (e : PyErr) : Py A := λ _, Raise e.

Definition lift {A} (r : Result A) : Py A := λ st,
  match r with
  | Ok a => Ok (a, st)
  | Raise e => Raise e
  end.

Definition print (l : Line) : Py unit := λ st,
  Ok (tt, mkStore (frames st) (stdout st ++ [l])).

(** A new frame object on the heap. *)
Definition new_frame (df : DataFrame) : Py nat := λ st,
  let l := fresh (dom (frames st)) in
  Ok (l, mkStore (<[l := df]> (frames st)) (stdout st)).

(** The frame behind a reference.  The references the functions are
    given are references of live objects: the theorems take
    [frames st !! data = Some d]. *)
Definition frame (l : nat) : Py DataFrame := λ st, Ok (frames st !!! l, st).

(** In-place update of the frame behind a reference. *)
Definition update_frame (l : nat) (f : DataFrame → DataFrame) : Py unit := λ st,
  Ok (tt, mkStore (<[l := f (frames st !!! l)]> (frames st)) (stdout st)).

(** ** The pandas operations the source calls *)

(** [df[c]] *)
Definition getitem (df : DataFrame) (c : string) : Result (list Cell) :=
  if decide (c ∈ columns df) then Ok (map (λ r, cell r c) (rows df))
  else Raise (KeyError c).

Definition add_column (cols : list string) (c : string) : list string :=
  if decide (c ∈ cols) then cols else cols ++ [c].

(** [df[c] = series], the series coming from a frame with the same rows. *)
Definition setitem (c : string) (vals : list Cell) (df : DataFrame) : DataFrame :=
  mkDF (add_column (columns df) c)
       (zip_with (λ r v, <[c := v]> r) (rows df) vals).

(** [df[c] = scalar] *)
Definition setitem_scalar (c : string) (v : Cell) (df : DataFrame) : DataFrame :=
  mkDF (add_column (columns df) c) (map (λ r, <[c := v]> r) (rows df)).

(** [df[mask]] for a mask computed row by row. *)
Definition select (p : Row → bool) (df : DataFrame) : DataFrame :=
  mkDF (columns df) (List.filter p (rows df)).

(** [df.dropna(subset=[c])] *)
Definition dropna (c : string) (df : DataFrame) : Result DataFrame :=
  if decide (c ∈ columns df)
  then Ok (select (λ r, negb (isna (cell r c))) df)
  else Raise (KeyError c).

(** [df.duplicated()]: a row is a duplicate when an earlier row equals
    it on every column; [prev] are the rows met so far. *)
Fixpoint keep_first (cols : list string) (prev : list Row) (l : list Row) : list Row :=
  match l with
  | [] => []
  | r :: l' =>
      if existsb (row_eqb cols r) prev then keep_first cols (r :: prev) l'
      else r :: keep_first cols (r :: prev) l'
  end.

Definition drop_duplicates (df : DataFrame) : DataFrame :=
  mkDF (columns df) (keep_first (columns df) [] (rows df)).

(** [df.empty]: no rows or no columns. *)
Definition empty (df : DataFrame) : bool :=
  match columns df, rows df with
  | [], _ | _, [] => true
  | _, _ => false
  end.

Fixpoint union_columns (acc : list string) (cs : list string) : list string :=
  match cs with
  | [] => acc
  | c :: cs' => union_columns (add_column acc c) cs'
  end.

(** [pd.concat(dfs, ignore_index=True)]: the columns in order of first
    appearance, the rows of every frame in order, each row holding the
    cells of its own frame's columns only. *)
Definition concat (dfs : list DataFrame) : DataFrame :=
  mkDF (foldl (λ acc df, union_columns acc (columns df)) [] dfs)
       (mbind (M := list)
          (λ df, map (λ r : Row, filter (λ kv, kv.1 ∈ columns df) r) (rows df)) dfs).

(** [series.fillna(v)] *)
Definition fillna (v : Cell) (col : list Cell) : list Cell :=
  map (λ c, if isna c then v else c) col.

(** [df[cols]] for a list of column names. *)
Definition project (cols : list string) (df : DataFrame) : Result DataFrame :=
  match List.filter (λ c, negb (bool_decide (c ∈ columns df))) cols with
  | [] => Ok (mkDF cols (map (λ r : Row, filter (λ kv, kv.1 ∈ cols) r) (rows df)))
  | c :: _ => Raise (KeyError c)
  end.

(** [df.drop(columns=cs)] *)
Definition drop_columns (cs : list string) (df : DataFrame) : DataFrame :=
  mkDF (List.filter (λ c, negb (bool_decide (c ∈ cs))) (columns df))
       (map (λ r : Row, filter (λ kv, kv.1 ∉ cs) r) (rows df)).

(** [left.merge(right, on=keys, how="left")].  A column name that both
    frames have outside the keys is suffixed [_x] on the left and [_y] on
    the right; pandas refuses the merge when a suffixed name is already a
    column of its frame.  Every left row is paired with each right row
    that agrees with it on the keys, in the order of the right frame, and
    kept once with missing right cells when there is none. *)
Definition overlap (keys : list string) (left right : DataFrame) (c : string) : bool :=
  bool_decide (c ∈ columns left) && bool_decide (c ∈ columns right)
  && negb (bool_decide (c ∈ keys)).

Definition suffixed (keys : list string) (left right : DataFrame)
    (sfx : string) (c : string) : string :=
  if overlap keys left right c then c +:+ sfx else c.

Definition right_columns (keys : list string) (right : DataFrame) : list string :=
  List.filter (λ c, negb (bool_decide (c ∈ keys))) (columns right).

Definition merged_row (keys : list string) (left right : DataFrame)
    (l : Row) (r : option Row) : Row :=
  list_to_map
    (map (λ c, (suffixed keys left right "_x" c, cell l c)) (columns left) ++
     map (λ c, (suffixed keys left right "_y" c, from_option (λ r, cell r c) CNull r))
         (right_columns keys right)).

Definition merge_left (keys : list string) (left right : DataFrame) : Result DataFrame :=
  match List.filter (λ k, negb (bool_decide (k ∈ columns left) && bool_decide (k ∈ columns right))) keys with
  | k :: _ => Raise (KeyError k)
  | [] =>
      if existsb (λ c, overlap keys left right c &&
                       (bool_decide (c +:+ "_x" ∈ columns left)
                        || bool_decide (c +:+ "_y" ∈ columns right)))
                 (columns left)
      then Raise MergeError
      else Ok (mkDF
        (map (suffixed keys left right "_x") (columns left) ++
         map (suffixed keys left right "_y") (right_columns keys right))
        (mbind (M := list)
           (λ l, match List.filter (λ r, row_eqb keys l r) (rows right) with
                 | [] => [merged_row keys left right l None]
                 | ms => map (λ r, merged_row keys left right l (Some r)) ms
                 end)
           (rows left)))
  end.

(** ** Format specifications

    [format(x, spec)] and the replacement fields of an f-string read
    [spec] from left to right as
    [[[fill]align][sign][z][#][0][width][grouping][.precision][type]];
    when more than one character is left where the type is expected, the
    specification is refused. *)

Record FormatSpec : Type := mkFormatSpec {
  fs_fill : option ascii;
  fs_align : option ascii;
  fs_sign : option ascii;
  fs_no_neg_zero : bool;
  fs_alternate : bool;
  fs_zero : bool;
  fs_width : option nat;
  fs_grouping : option ascii;
  fs_precision : option nat;
  fs_type : option ascii }.

Definition is_align (a : ascii) : bool := existsb (Ascii.eqb a) ["<"; ">"; "="; "^"]%char.

Definition is_sign (a : ascii) : bool := existsb (Ascii.eqb a) ["+"; "-"; " "]%char.

Definition digit (a : ascii) : option nat :=
  let n := nat_of_ascii a in
  if ((48 <=? n) && (n <=? 57))%nat then Some (n - 48)%nat else None.

(** The digits at the head of the text, if any, and what follows. *)
Fixpoint get_integer (acc : option nat) (l : list ascii) : option nat * list ascii :=
  match l with
  | a :: l' =>
      match digit a with
      | Some d => get_integer (Some (10 * default 0%nat acc + d)%nat) l'
      | None => (acc, l)
      end
  | [] => (acc, [])
  end.

Definition take_if (p : ascii → bool) (l : list ascii) : option ascii * list ascii :=
  match l with
  | a :: l' => if p a then (Some a, l') else (None, l)
  | [] => (None, [])
  end.

Definition parse_format_spec (spec type_name : string) : Result FormatSpec :=
  let l := list_ascii_of_string spec in
  let '(fill, align, l) :=
    match l with
    | f :: a :: l' =>
        if is_align a then (Some f, Some a, l')
        else if is_align f then (None, Some f, a :: l')
        else (None, None, l)
    | [a] => if is_align a then (None, Some a, []) else (None, None, l)
    | [] => (None, None, [])
    end in
  let '(sign, l) := take_if is_sign l in
  let '(z, l) := take_if (Ascii.eqb "z") l in
  let '(alternate, l) := take_if (Ascii.eqb "#") l in
  let '(zero, l) :=
    match fill with
    | Some _ => (None, l)
    | None => take_if (Ascii.eqb "0") l
    end in
  let '(width, l) := get_integer None l in
  let '(comma, l) := take_if (Ascii.eqb ",") l in
  let '(underscore, l) := take_if (Ascii.eqb "_") l in
  let '(comma', l) := take_if (Ascii.eqb ",") l in
  if (bool_decide (is_Some comma) || bool_decide (is_Some comma'))
     && bool_decide (is_Some underscore)
  then Raise (ValueError "Cannot specify both ',' and '_'.")
  else
    let precision :=
      match l with
      | "."%char :: l' =>
          match get_integer None l' with
          | (Some p, l'') => Ok (Some p, l'')
          | (None, _) => Raise (ValueError "Format specifier missing precision")
          end
      | _ => Ok (None, l)
      end in
    match precision with
    | Raise e => Raise e
    | Ok (precision, l) =>
        match l with
        | _ :: _ :: _ =>
            Raise (ValueError ("Invalid format specifier '" +:+ spec
                               +:+ "' for object of type '" +:+ type_name +:+ "'"))
        | type =>
            Ok (mkFormatSpec fill align sign (bool_decide (is_Some z))
                  (bool_decide (is_Some alternate)) (bool_decide (is_Some zero))
                  width (if comma is Some c then Some c
                         else if comma' is Some c then Some c else underscore)
                  precision (head type))
        end
    end.

(** ** The library interface *)

Definition is_datetime (c : Cell) : Prop := c = CNull ∨ ∃ t, c = CTime t.

Class Pandas : Type := {
  (** [pd.to_datetime(series, errors="coerce")]: a datetime column, with
      [NaT] where a value cannot be parsed *)
  to_datetime : list Cell → list Cell;
  to_datetime_length : ∀ col, length (to_datetime col) = length col;
  to_datetime_dtype : ∀ col, Forall is_datetime (to_datetime col);
  to_datetime_datetime : ∀ col, Forall is_datetime col → to_datetime col = col;
  (** [df.sort_values(by=c)] with the default sort kind *)
  sort_values : string → list Row → list Row;
  (** [series.quantile(q)], [series.mean()], [series.std()] over the
      non-missing values; a float, [NaN] when there is no value *)
  quantile : list float → float → float;
  mean : list float → float;
  std : list float → float;
  (** [series.rolling(window, min_periods=m).mean()] and [.std()]: one
      float per row *)
  rolling_mean : nat → nat → list float → list float;
  rolling_std : nat → nat → list float → list float;
  rolling_mean_length : ∀ w m col, length (rolling_mean w m col) = length col;
  rolling_std_length : ∀ w m col, length (rolling_std w m col) = length col;
  (** [series.str]: the message of the [AttributeError] with which the
      accessor refuses a column, if it does; a column that holds a string
      is accepted *)
  str_accessor : list Cell → option string;
  str_accessor_string : ∀ col s, CStr s ∈ col → str_accessor col = None;
  (** [str.upper] *)
  upper : string → string;
  (** [float.__format__] for a specification that has been read: the
      text, or the [ValueError] of a presentation type that floats do
      not have *)
  float_format : FormatSpec → float → Result string;
}.

(** ** The three functions of the source *)

Inductive PyObj : Type :=
| PyDataFrame (df : DataFrame)
| PyOther.

(** [isinstance(df, pd.DataFrame) and not df.empty] *)
Definition valid_batch (o : PyObj) : option DataFrame :=
  match o with
  | PyDataFrame df => if empty df then None else Some df
  | PyOther => None
  end.

(** [series == s] on one cell *)
Definition str_eqb (c : Cell) (s : string) : bool :=
  match c with
  | CStr s' => String.eqb s' s
  | _ => false
  end.

Definition dropna_floats (col : list float) : list float :=
  List.filter (λ x, negb (is_nan x)) col.

Definition supported_methods : list string := ["zscore"; "iqr"; "rolling"].

Definition anomaly_columns : list string :=
  ["is_anomaly"; "anomaly_score"; "detection_method"].

Section source.
Context {P : Pandas}.

(** [series.str.upper()]: the accessor may refuse the column; what is
    not a string gives a missing value. *)
Definition str_upper (col : list Cell) : Result (list Cell) :=
  match str_accessor col with
  | Some msg => Raise (AttributeError msg)
  | None => Ok (map (λ c, match c with
                          | CStr s => CStr (upper s)
                          | _ => CNull
                          end) col)
  end.

(** The replacement field [{x:spec}] of an f-string, for a float [x]. *)
Definition format_float (x : float) (spec : string) : Result string :=
  fs ← parse_format_spec spec "float"; float_format fs x.

Definition ingest_data (data_batches : list PyObj) (validate : bool) : Py DataFrame :=
  match data_batches with
  | [] => raise (ValueError "Data must be a non-empty list of DataFrames")
  | _ =>
    let valid_data_batches := omap valid_batch data_batches in
    match valid_data_batches with
    | [] => raise (ValueError "All batches are empty or invalid")
    | _ =>
      let df := concat valid_data_batches in
      ts ← lift (getitem df "timestamp");
      let df := setitem "timestamp" (to_datetime ts) df in
      if validate then
        df ← lift (dropna "timestamp" df);
        let df := drop_duplicates df in
        df ← lift (dropna "value" df);
        q ← lift (getitem df "quality");
        q ← lift (str_upper q);
        let df := setitem "quality" (fillna (CStr "UNCERTAIN") q) df in
        let total_readings := length (rows df) in
        q ← lift (getitem df "quality");
        let bad_readings := length (List.filter (λ c, str_eqb c "BAD") q) in
        let bad_percentage :=
          (float_of_nat bad_readings / float_of_nat total_readings * 100)%float in
        text ← lift (format_float bad_percentage ".2f ");
        print (BatchEvaluation text);;
        q ← lift (getitem df "quality");
        let df := select (λ r, negb (str_eqb (cell r "quality") "BAD")) df in
        _ ← lift (getitem df "timestamp");
        let df := mkDF (columns df) (sort_values "timestamp" (rows df)) in
        v ← lift (getitem df "value");
        let q01 := quantile (map num v) 0.01 in
        let q99 := quantile (map num v) 0.99 in
        let df :=
          setitem "is_outlier"
            (map (λ c, CBool ((num c <? q01)%float || (q99 <? num c)%float)) v) df in
        mret df
      else mret df
    end
  end.

(** [df[c] = e], the series [e] being computed from the frame [df]
    itself. *)
Definition assign (df : nat) (c : string) (e : DataFrame → Result (list Cell)) : Py unit :=
  s ← frame df;
  vals ← lift (e s);
  update_frame df (setitem c vals).

(** The statements of one method on [sensor_df]. *)
Definition flat_scores (sensor_df : nat) : Py unit :=
  update_frame sensor_df (setitem_scalar "anomaly_score" (CNum 0));;
  update_frame sensor_df (setitem_scalar "is_anomaly" (CBool false)).

Definition zscore (sensor_df : nat) (valid_values : list float) (threshold : float) : Py unit :=
  let mean_ := mean valid_values in
  let std_ := std valid_values in
  if (std_ =? 0)%float then flat_scores sensor_df
  else
    assign sensor_df "anomaly_score" (λ s,
      v ← getitem s "value";
      mret (map (λ c, CNum ((num c - mean_) / std_)) v));;
    assign sensor_df "is_anomaly" (λ s,
      a ← getitem s "anomaly_score";
      mret (map (λ c, CBool (threshold <? PrimFloat.abs (num c))%float) a)).

Definition iqr (sensor_df : nat) (valid_values : list float) (threshold : float) : Py unit :=
  let Q1 := quantile valid_values 0.25 in
  let Q3 := quantile valid_values 0.75 in
  let IQR := (Q3 - Q1)%float in
  if (IQR =? 0)%float then flat_scores sensor_df
  else
    assign sensor_df "anomaly_score" (λ s,
      v ← getitem s "value";
      mret (map (λ c, CNum (PrimFloat.abs ((num c - Q3) / IQR))) v));;
    assign sensor_df "is_anomaly" (λ s,
      v ← getitem s "value";
      mret (map (λ c, CBool ((num c <? Q1 - threshold * IQR)%float
                             || (Q3 + threshold * IQR <? num c)%float)) v)).

Definition rolling (sensor_df : nat) (threshold : float) : Py unit :=
  let window := 10%nat in
  assign sensor_df "rolling_mean" (λ s,
    v ← getitem s "value";
    mret (map CNum (rolling_mean window 2 (map num v))));;
  assign sensor_df "rolling_std" (λ s,
    v ← getitem s "value";
    mret (map CNum (rolling_std window 2 (map num v))));;
  assign sensor_df "anomaly_score" (λ s,
    v ← getitem s "value";
    m ← getitem s "rolling_mean";
    d ← getitem s "rolling_std";
    mret (zip_with (λ c md, CNum ((num c - num md.1) / num md.2)) v (zip m d)));;
  assign sensor_df "is_anomaly" (λ s,
    a ← getitem s "anomaly_score";
    mret (map (λ c, CBool (threshold <? PrimFloat.abs (num c))%float) a));;
  update_frame sensor_df (drop_columns ["rolling_mean"; "rolling_std"]).

(** The [if]/[elif] chain over [method]. *)
Definition score (sensor_df : nat) (method : string) (valid_values : list float)
    (threshold : float) : Py unit :=
  if String.eqb method "zscore" then zscore sensor_df valid_values threshold
  else if String.eqb method "iqr" then iqr sensor_df valid_values threshold
  else if String.eqb method "rolling" then rolling sensor_df threshold
  else mret tt.

(** The merge of the scores into [data] and the three [fillna]. *)
Definition merge_back (data sensor_df : nat) : Py nat :=
  s ← frame sensor_df;
  right ← lift (project ("timestamp" :: "sensor" :: anomaly_columns) s);
  d ← frame data;
  m ← lift (merge_left ["timestamp"; "sensor"] d right);
  result ← new_frame m;
  assign result "is_anomaly" (λ r,
    c ← getitem r "is_anomaly"; mret (fillna (CBool false) c));;
  assign result "anomaly_score" (λ r,
    c ← getitem r "anomaly_score"; mret (fillna (CNum 0) c));;
  assign result "detection_method" (λ r,
    c ← getitem r "detection_method"; mret (fillna (CStr "none") c));;
  mret result.

Definition detect_anomalies (data : nat) (sensor_name method : string)
    (threshold : float) : Py nat :=
  d ← frame data;
  sensors ← lift (getitem d "sensor");
  if negb (existsb (λ c, str_eqb c sensor_name) sensors)
  then raise (ValueError ("Sensor '" +:+ sensor_name +:+ "' not found in the data"))
  else if negb (bool_decide (method ∈ supported_methods))
  then raise (ValueError ("Method '" +:+ method +:+ "' not supported. Choose from "
                          +:+ "['zscore', 'iqr', 'rolling']"))
  else
    sensor_df ← new_frame (select (λ r, str_eqb (cell r "sensor") sensor_name) d);
    s ← frame sensor_df;
    v ← lift (getitem s "value");
    let valid_values := dropna_floats (map num v) in
    if (length valid_values <? 2)%nat
    then raise (ValueError ("Insufficient data for anomaly detection for sensor '"
                            +:+ sensor_name +:+ "'"))
    else if empty s
    then raise (ValueError ("No data available for sensor '" +:+ sensor_name +:+ "'"))
    else
      score sensor_df method valid_values threshold;;
      update_frame sensor_df (setitem_scalar "detection_method" (CStr method));;
      merge_back data sensor_df.

(** The body of [summarize_metrics] is its docstring and one [raise]. *)
Definition summarize_metrics (data : nat) (group_by : option string)
    (time_window : option string) : Py (gmap string (gmap string float)) :=
  raise (NotImplementedError "summarize_metrics() must be implemented by the candidate").

End source.

(** ** An executable instance of the library interface

    Small implementations that follow the documented behaviour of the
    library calls, to run the functions on concrete frames. *)

Module Simple.

(** [str.upper] on ASCII letters. *)
Definition upper_ascii (a : ascii) : ascii :=
  let n := N_of_ascii a in
  if ((97 <=? n) && (n <=? 122))%N then ascii_of_N (n - 32) else a.

Fixpoint upper (s : string) : string :=
  match s with
  | EmptyString => EmptyString
  | String a s' => String (upper_ascii a) (upper s')
  end.

Definition is_str (c : Cell) : bool :=
  match c with
  | CStr _ => true
  | _ => false
  end.

(** The accessor takes a column of dtype [object] that holds a string
    or nothing but missing values. *)
Definition str_accessor (col : list Cell) : option string :=
  if existsb is_str col || forallb isna col then None
  else Some "Can only use .str accessor with string values!".

Lemma str_accessor_string col s : CStr s ∈ col → str_accessor col = None.
Proof.
  intros Hin. unfold str_accessor.
  assert (existsb is_str col = true) as ->; [|done].
  apply existsb_exists. exists (CStr s). split; [by apply list_elem_of_In|done].
Qed.

(** The fixed-point presentation with [p] digits after the point, the
    exact value being rounded to the nearest, ties to even. *)
Definition fixed (p : nat) (x : float) : string :=
  let point (s : bool) (n : Z) : string :=
    let shift := (10 ^ Z.of_nat p)%Z in
    let frac := pretty (shift + n mod shift)%Z in
    (if s then "-" else "") +:+ pretty (n / shift)%Z
    +:+ (if p is 0%nat then "" else "." +:+ String.substring 1 p frac) in
  match Prim2SF x with
  | S754_nan => "nan"
  | S754_infinity s => if s then "-inf" else "inf"
  | S754_zero s => point s 0%Z
  | S754_finite s m e =>
      let num := (Z.pos m * 10 ^ Z.of_nat p * 2 ^ Z.max e 0)%Z in
      let den := (2 ^ Z.max (- e) 0)%Z in
      let q := (num / den)%Z in
      let r := (num mod den)%Z in
      point s (if (den <? 2 * r)%Z || ((den =? 2 * r)%Z && Z.odd q) then q + 1 else q)%Z
  end.

(** The instance gives the text of the presentation type [f], without
    width, sign or grouping option, which is all that a specification
    such as [.2f] asks for; it has no text for the other presentation
    types. *)
Definition float_format (fs : FormatSpec) (x : float) : Result string :=
  match fs_type fs with
  | Some "f"%char => Ok (fixed (default 6%nat (fs_precision fs)) x)
  | _ => Raise (ValueError "presentation type without text in this instance")
  end.

Fixpoint digits (s : string) (acc : Z) : option Z :=
  match s with
  | EmptyString => Some acc
  | String a s' =>
      let n := Z.of_N (N_of_ascii a) in
      if ((48 <=? n) && (n <=? 57))%Z then digits s' (10 * acc + (n - 48))%Z else None
  end.

(** Times are written as a number of seconds; anything else is [NaT]. *)
Definition to_datetime (col : list Cell) : list Cell :=
  map (λ c, match c with
            | CTime t => CTime t
            | CStr (String a s) => from_option CTime CNull (digits (String a s) 0)
            | _ => CNull
            end) col.

Definition time_key (c : string) (r : Row) : Z :=
  match cell r c with
  | CTime t => t
  | _ => 0
  end.

Fixpoint insert_row (c : string) (r : Row) (l : list Row) : list Row :=
  match l with
  | [] => [r]
  | x :: l' =>
      if (time_key c r <=? time_key c x)%Z then r :: x :: l'
      else x :: insert_row c r l'
  end.

Definition sort_values (c : string) (l : list Row) : list Row :=
  foldr (insert_row c) [] l.

Fixpoint insert_float (x : float) (l : list float) : list float :=
  match l with
  | [] => [x]
  | y :: l' => if (x <=? y)%float then x :: y :: l' else y :: insert_float x l'
  end.

Definition trunc (x : float) : nat :=
  match Prim2SF x with
  | S754_finite false m e => Z.to_nat (Z.shiftl (Zpos m) e)
  | _ => 0
  end.

(** Linear interpolation between the two nearest order statistics. *)
Definition quantile (col : list float) (q : float) : float :=
  let s := foldr insert_float [] (dropna_floats col) in
  match length s with
  | 0 => nan
  | S n =>
      let h := (float_of_nat n * q)%float in
      let i := trunc h in
      let t := (h - float_of_nat i)%float in
      let a := nth i s nan in
      let b := nth (Nat.min (S i) n) s nan in
      if (a =? b)%float then a
      else if (t <? 0.5)%float then (a + (b - a) * t)%float
      else (b - (b - a) * (1 - t))%float
  end.

Definition sum (col : list float) : float := foldl PrimFloat.add 0%float col.

Definition mean (col : list float) : float :=
  let v := dropna_floats col in
  (sum v / float_of_nat (length v))%float.

(** The sample standard deviation ([ddof=1]). *)
Definition std (col : list float) : float :=
  let v := dropna_floats col in
  let m := mean v in
  PrimFloat.sqrt (sum (map (λ x, (x - m) * (x - m))%float v) / float_of_nat (length v - 1))%float.

Definition rolling (f : list float → float) (window min_periods : nat)
    (col : list float) : list float :=
  map (λ i, let w := dropna_floats (drop (S i - window) (take (S i) col)) in
            if (length w <? min_periods)%nat then nan else f w)
      (seq 0 (length col)).

Lemma to_datetime_length col : length (to_datetime col) = length col.
Proof. apply length_map. Qed.

Lemma to_datetime_dtype col : Forall is_datetime (to_datetime col).
Proof.
  apply Forall_map, Forall_forall. intros c _.
  destruct c as [|t|s|x|b]; try (by left); try (by right; eexists).
  destruct s as [|a s]; [by left|].
  destruct (digits _ _); [by right; eexists | by left].
Qed.

Lemma to_datetime_datetime col : Forall is_datetime col → to_datetime col = col.
Proof.
  induction 1 as [|c col [->|[t ->]] _ IH]; [done|..];
    unfold to_datetime in *; cbn [map]; by rewrite IH.
Qed.

Lemma rolling_length f w m col : length (rolling f w m col) = length col.
Proof. unfold rolling. by rewrite length_map, length_seq. Qed.

Definition pandas : Pandas :=
  Build_Pandas
    to_datetime to_datetime_length to_datetime_dtype to_datetime_datetime
    sort_values
    quantile mean std
    (rolling mean) (rolling std) (rolling_length mean) (rolling_length std)
    str_accessor str_accessor_string upper float_format.

End Simple.

(** * Properties *)

(** ** Columns and cells of the pandas operations *)

Lemma add_column_elem cols c : c ∈ add_column cols c.
Proof. unfold add_column. case_decide; [done|]. apply elem_of_app. right. by left. Qed.

Lemma add_column_mono cols c c' : c' ∈ cols → c' ∈ add_column cols c.
Proof. unfold add_column. case_decide; [done|]. intros. apply elem_of_app. by left. Qed.

Lemma add_column_id cols c : c ∈ cols → add_column cols c = cols.
Proof. unfold add_column. by case_decide. Qed.

Lemma add_column_inv cols c c' : c' ∈ add_column cols c → c' ∈ cols ∨ c' = c.
Proof.
  unfold add_column. case_decide; [by left|].
  rewrite elem_of_app, list_elem_of_singleton. tauto.
Qed.

Lemma getitem_Ok df c :
  c ∈ columns df → getitem df c = Ok (map (λ r, cell r c) (rows df)).
Proof. unfold getitem. by case_decide. Qed.

Lemma getitem_KeyError df c : c ∉ columns df → getitem df c = Raise (KeyError c).
Proof. unfold getitem. by case_decide. Qed.

Lemma zip_with_map_r {A B C} (f : A → B → C) (g : A → B) (l : list A) :
  zip_with f l (map g l) = map (λ a, f a (g a)) l.
Proof. induction l as [|a l IH]; [done|]. cbn. by rewrite IH. Qed.

Lemma cell_insert r c v : cell (<[c := v]> r) c = v.
Proof. unfold cell. by rewrite lookup_insert_eq. Qed.

Lemma cell_insert_ne r c c' v : c ≠ c' → cell (<[c := v]> r) c' = cell r c'.
Proof. intros. unfold cell. by rewrite lookup_insert_ne. Qed.

Lemma elem_of_List_filter {A} (p : A → bool) (l : list A) (x : A) :
  x ∈ List.filter p l ↔ x ∈ l ∧ p x = true.
Proof. rewrite !list_elem_of_In. apply filter_In. Qed.

Lemma filter_map_comm {A B} (f : A → B) (p : B → bool) (l : list A) :
  List.filter p (map f l) = map f (List.filter (λ a, p (f a)) l).
Proof.
  induction l as [|a l IH]; [done|]. cbn. destruct (p (f a)); cbn; by rewrite IH.
Qed.

Lemma List_filter_sublist {A} (p : A → bool) (l : list A) : List.filter p l `sublist_of` l.
Proof.
  induction l as [|a l IH]; [done|]. cbn.
  destruct (p a); [by apply sublist_skip | by apply sublist_cons].
Qed.

Lemma List_filter_none {A} (p : A → bool) (l : list A) :
  Forall (λ a, p a = false) l → List.filter p l = [].
Proof. induction 1 as [|a l Ha _ IH]; [done|]. cbn. by rewrite Ha, IH. Qed.

Lemma existsb_false_Forall {A} (p : A → bool) (l : list A) :
  existsb p l = false → Forall (λ a, p a = false) l.
Proof.
  induction l as [|a l IH]; [by constructor|]. cbn.
  intros [Ha Hl]%orb_false_elim. constructor; [done|by apply IH].
Qed.

(** *** Columns of a concatenation *)

Lemma union_columns_elem acc cs c : c ∈ union_columns acc cs ↔ c ∈ acc ∨ c ∈ cs.
Proof.
  revert acc. induction cs as [|c' cs IH]; intros acc; cbn.
  { rewrite elem_of_nil. tauto. }
  rewrite IH, elem_of_cons. split.
  - intros [[?| ->]%add_column_inv|?]; auto.
  - intros [?|[->|?]]; auto using add_column_mono, add_column_elem.
Qed.

Lemma concat_columns_elem dfs c :
  c ∈ columns (concat dfs) ↔ ∃ df, df ∈ dfs ∧ c ∈ columns df.
Proof.
  unfold concat. cbn [columns].
  assert (∀ acc, c ∈ foldl (λ acc df, union_columns acc (columns df)) acc dfs
                 ↔ c ∈ acc ∨ ∃ df, df ∈ dfs ∧ c ∈ columns df) as Hgen.
  { induction dfs as [|df dfs IH]; intros acc; cbn.
    - split; [by left|]. intros [?|(df & []%elem_of_nil & _)]. done.
    - rewrite IH, union_columns_elem. split.
      + intros [[?|?]|(df' & ? & ?)]; [by left|right..].
        * exists df. split; [by left|done].
        * exists df'. split; [by right|done].
      + intros [?|(df' & [->|?]%elem_of_cons & ?)]; [by left; left|by left; right|].
        right. by exists df'. }
  rewrite Hgen, elem_of_nil. tauto.
Qed.

Lemma add_column_NoDup cols c : NoDup cols → NoDup (add_column cols c).
Proof.
  unfold add_column. case_decide; [done|]. intros.
  apply NoDup_app. split; [done|]. split; [|apply NoDup_singleton].
  intros x Hx ->%list_elem_of_singleton. done.
Qed.

Lemma union_columns_NoDup acc cs : NoDup acc → NoDup (union_columns acc cs).
Proof.
  revert acc. induction cs as [|c cs IH]; intros acc Hacc; [done|].
  cbn. by apply IH, add_column_NoDup.
Qed.

Lemma union_columns_id acc cs : NoDup (acc ++ cs) → union_columns acc cs = acc ++ cs.
Proof.
  revert acc. induction cs as [|c cs IH]; intros acc Hnd; cbn.
  { by rewrite app_nil_r. }
  assert (c ∉ acc) as Hc.
  { apply NoDup_app in Hnd as (_ & Hnd & _). intros Hc. apply (Hnd c Hc). by left. }
  unfold add_column. rewrite decide_False by done.
  rewrite IH; rewrite <- app_assoc; done.
Qed.

Lemma concat_columns_NoDup dfs : NoDup (columns (concat dfs)).
Proof.
  unfold concat. cbn [columns].
  assert (∀ acc, NoDup acc →
            NoDup (foldl (λ acc df, union_columns acc (columns df)) acc dfs)) as Hgen.
  { induction dfs as [|df dfs IH]; intros acc Hacc; [done|].
    cbn. by apply IH, union_columns_NoDup. }
  apply Hgen, NoDup_nil_2.
Qed.

Lemma concat_rows_keys dfs (r : Row) k :
  r ∈ rows (concat dfs) → is_Some (r !! k) → k ∈ columns (concat dfs).
Proof.
  unfold concat at 1. cbn [rows].
  intros (df & (r0 & -> & Hr0)%list_elem_of_fmap & Hdf)%list_elem_of_bind [v Hv].
  apply map_lookup_filter_Some in Hv as [_ Hk].
  apply concat_columns_elem. by exists df.
Qed.

(** Concatenating one frame whose rows hold cells of its columns only. *)
Lemma concat_singleton df :
  NoDup (columns df) →
  Forall (λ r : Row, ∀ k, is_Some (r !! k) → k ∈ columns df) (rows df) →
  concat [df] = df.
Proof.
  intros Hnd Hkeys. destruct df as [cols l]. unfold concat. cbn in *.
  rewrite union_columns_id by done. cbn. f_equal.
  rewrite app_nil_r. induction Hkeys as [|r l Hr _ IH]; [done|].
  cbn. rewrite IH. f_equal. apply map_filter_id. intros k v Hv. apply Hr. by eexists.
Qed.

Lemma existsb_fmap {A B} (f : A → B) (p : B → bool) (l : list A) :
  existsb p (map f l) = existsb (λ a, p (f a)) l.
Proof. induction l as [|a l IH]; [done|]. cbn. by rewrite IH. Qed.

(** *** Projection and merge *)

Lemma cell_restrict (cols : list string) (r : Row) c :
  c ∈ cols → cell (filter (λ kv : string * Cell, kv.1 ∈ cols) r) c = cell r c.
Proof.
  intros Hc. unfold cell. destruct (r !! c) as [v|] eqn:Hr.
  - by rewrite (map_lookup_filter_Some_2 _ _ _ _ Hr).
  - rewrite map_lookup_filter_None_2; [done|by left].
Qed.

Lemma project_inv cols df scores :
  project cols df = Ok scores →
  scores = mkDF cols (map (λ r : Row, filter (λ kv, kv.1 ∈ cols) r) (rows df))
  ∧ Forall (λ c, c ∈ columns df) cols.
Proof.
  unfold project. destruct (List.filter _ cols) as [|c0 l0] eqn:Hf; [|done].
  intros [= <-]. split; [done|]. apply Forall_forall. intros c Hc.
  destruct (decide (c ∈ columns df)) as [|Hn]; [done|].
  assert (c ∈ List.filter (λ c, negb (bool_decide (c ∈ columns df))) cols) as Hin.
  { apply elem_of_List_filter. split; [done|]. by rewrite bool_decide_false. }
  rewrite Hf in Hin. by apply elem_of_nil in Hin.
Qed.

Lemma project_Ok cols df :
  Forall (λ c, c ∈ columns df) cols →
  project cols df = Ok (mkDF cols (map (λ r : Row, filter (λ kv, kv.1 ∈ cols) r) (rows df))).
Proof.
  intros Hc. unfold project. rewrite List_filter_none; [done|].
  eapply Forall_impl; [exact Hc|]. intros c Hin. by rewrite bool_decide_true.
Qed.

(** Outside the keys the two frames share no column name. *)
Definition disjoint_columns (keys : list string) (left right : DataFrame) : Prop :=
  ∀ c, c ∈ columns left → c ∈ columns right → c ∈ keys.

Lemma overlap_false keys left right c :
  disjoint_columns keys left right → overlap keys left right c = false.
Proof.
  intros Hd. unfold overlap.
  destruct (decide (c ∈ columns left)); [|by rewrite bool_decide_false].
  destruct (decide (c ∈ columns right)); [|by rewrite (bool_decide_false (c ∈ columns right)), andb_false_r].
  rewrite (bool_decide_true (c ∈ keys)) by by apply Hd. by rewrite andb_false_r.
Qed.

Lemma suffixed_id keys left right sfx c :
  disjoint_columns keys left right → suffixed keys left right sfx c = c.
Proof. intros Hd. unfold suffixed. by rewrite overlap_false. Qed.

Lemma lookup_list_to_map_l (f g : string → Cell) (cs1 cs2 : list string) c :
  c ∈ cs1 →
  (list_to_map (map (λ c, (c, f c)) cs1 ++ map (λ c, (c, g c)) cs2) : Row) !! c = Some (f c).
Proof.
  induction cs1 as [|a cs1 IH]; [by intros ?%elem_of_nil|].
  intros Hc. cbn. destruct (decide (a = c)) as [->|Hne].
  - by rewrite lookup_insert_eq.
  - rewrite lookup_insert_ne by done. apply IH.
    apply elem_of_cons in Hc as [?|?]; [congruence|done].
Qed.

Lemma lookup_list_to_map_r (f g : string → Cell) (cs1 cs2 : list string) c :
  c ∉ cs1 → c ∈ cs2 →
  (list_to_map (map (λ c, (c, f c)) cs1 ++ map (λ c, (c, g c)) cs2) : Row) !! c = Some (g c).
Proof.
  intros Hn Hc. induction cs1 as [|a cs1 IH]; cbn.
  - induction cs2 as [|b cs2 IH2]; [by apply elem_of_nil in Hc|].
    cbn. destruct (decide (b = c)) as [->|Hne].
    + by rewrite lookup_insert_eq.
    + rewrite lookup_insert_ne by done. apply IH2.
      apply elem_of_cons in Hc as [?|?]; [congruence|done].
  - apply not_elem_of_cons in Hn as [Hne Hn]. rewrite lookup_insert_ne by done. by apply IH.
Qed.

Lemma merged_row_disjoint keys left right l r :
  disjoint_columns keys left right →
  merged_row keys left right l r =
    list_to_map (map (λ c, (c, cell l c)) (columns left) ++
                 map (λ c, (c, from_option (λ r, cell r c) CNull r)) (right_columns keys right)).
Proof.
  intros Hd. unfold merged_row. f_equal. f_equal; apply map_ext; intros c; by rewrite suffixed_id.
Qed.

Lemma merged_row_cell_left keys left right l r c :
  disjoint_columns keys left right → c ∈ columns left →
  cell (merged_row keys left right l r) c = cell l c.
Proof.
  intros Hd Hc. rewrite merged_row_disjoint by done. unfold cell at 1.
  by rewrite lookup_list_to_map_l.
Qed.

Lemma merged_row_cell_right keys left right l r c :
  disjoint_columns keys left right → c ∉ columns left → c ∈ right_columns keys right →
  cell (merged_row keys left right l r) c = from_option (λ r, cell r c) CNull r.
Proof.
  intros Hd Hn Hc. rewrite merged_row_disjoint by done. unfold cell at 1.
  by rewrite lookup_list_to_map_r.
Qed.

(** The rows a left row gives in the merge. *)
Definition matches (keys : list string) (left right : DataFrame) (l : Row) : list Row :=
  match List.filter (λ r, row_eqb keys l r) (rows right) with
  | [] => [merged_row keys left right l None]
  | ms => map (λ r, merged_row keys left right l (Some r)) ms
  end.

Lemma merge_left_disjoint keys left right :
  Forall (λ k, k ∈ columns left ∧ k ∈ columns right) keys →
  disjoint_columns keys left right →
  merge_left keys left right =
    Ok (mkDF (columns left ++ right_columns keys right)
             (rows left ≫= matches keys left right)).
Proof.
  intros Hk Hd. unfold merge_left.
  rewrite List_filter_none.
  2:{ eapply Forall_impl; [exact Hk|]. intros k [? ?]. by rewrite !bool_decide_true. }
  assert (existsb (λ c, overlap keys left right c &&
                        (bool_decide (c +:+ "_x" ∈ columns left)
                         || bool_decide (c +:+ "_y" ∈ columns right))) (columns left) = false) as ->.
  { apply not_true_is_false. intros (c & _ & Hc)%existsb_exists.
    by rewrite overlap_false in Hc. }
  f_equal. f_equal.
  f_equal; (etrans; [|apply List.map_id]); apply map_ext; intros c; by apply suffixed_id.
Qed.

Lemma matches_elem keys left right l r' :
  r' ∈ matches keys left right l →
  r' = merged_row keys left right l None
       ∧ List.filter (λ r, row_eqb keys l r) (rows right) = []
  ∨ ∃ r, r ∈ rows right ∧ row_eqb keys l r = true
         ∧ r' = merged_row keys left right l (Some r).
Proof.
  unfold matches. destruct (List.filter _ _) as [|r0 ms] eqn:Hf.
  - intros ->%list_elem_of_singleton. by left.
  - intros (r & -> & Hr)%list_elem_of_fmap. right. exists r.
    rewrite <- Hf in Hr. by apply elem_of_List_filter in Hr as [? ?].
Qed.

Lemma matches_nonempty keys left right l : ∃ r', r' ∈ matches keys left right l.
Proof.
  unfold matches. destruct (List.filter _ _) as [|r0 ms]; eexists; by left.
Qed.

Lemma cell_eqb_refl c : cell_eqb c c = true.
Proof.
  destruct c as [|t|s|x|b]; cbn; try done.
  - apply Z.eqb_refl.
  - apply String.eqb_refl.
  - unfold is_nan. by destruct (x =? x)%float.
  - by destruct b.
Qed.

Lemma merge_left_keys keys left right m :
  merge_left keys left right = Ok m →
  Forall (λ k, k ∈ columns left ∧ k ∈ columns right) keys.
Proof.
  unfold merge_left. destruct (List.filter _ keys) as [|k0 l0] eqn:Hf; [|done].
  intros _. apply Forall_forall. intros k Hk.
  destruct (decide (k ∈ columns left ∧ k ∈ columns right)) as [|Hn]; [done|].
  assert (k ∈ List.filter (λ k, negb (bool_decide (k ∈ columns left)
                                      && bool_decide (k ∈ columns right))) keys) as Hin.
  { apply elem_of_List_filter. split; [done|]. apply negb_true_iff, not_true_is_false.
    intros [?%bool_decide_eq_true ?%bool_decide_eq_true]%andb_true_iff. by apply Hn. }
  rewrite Hf in Hin. by apply elem_of_nil in Hin.
Qed.

(** *** [NaN] in float arithmetic *)

Lemma SFcompare_refl x : x ≠ S754_nan → SFcompare x x = Some Eq.
Proof.
  destruct x as [s|s| |s m e]; cbn; try done; destruct s; try done.
  all: intros _; rewrite Z.compare_refl.
  all: change (Pos.compare_cont Eq m m) with (Pos.compare m m); by rewrite Pos.compare_refl.
Qed.

Lemma is_nan_Prim2SF x : is_nan x = true ↔ Prim2SF x = S754_nan.
Proof.
  unfold is_nan. rewrite FloatAxioms.eqb_spec. unfold SFeqb. split.
  - intros H. destruct (Prim2SF x) eqn:E; try done; rewrite SFcompare_refl in H; done.
  - by intros ->.
Qed.

Lemma is_nan_sub_div x m s : is_nan x = true → is_nan ((x - m) / s) = true.
Proof.
  rewrite !is_nan_Prim2SF, FloatAxioms.div_spec, FloatAxioms.sub_spec. intros ->.
  by destruct (Prim2SF m) as [| | |[] ? ?]; destruct (Prim2SF s) as [[]|[]| |[] ? ?].
Qed.

Lemma is_nan_abs x : is_nan x = true → is_nan (PrimFloat.abs x) = true.
Proof. rewrite !is_nan_Prim2SF, FloatAxioms.abs_spec. by intros ->. Qed.

Lemma ltb_nan_l x a : is_nan x = true → (x <? a)%float = false.
Proof. rewrite is_nan_Prim2SF, FloatAxioms.ltb_spec. by intros ->. Qed.

Lemma ltb_nan_r x a : is_nan x = true → (a <? x)%float = false.
Proof.
  rewrite is_nan_Prim2SF, FloatAxioms.ltb_spec. intros ->. unfold SFltb.
  by destruct (Prim2SF a).
Qed.

Lemma isna_num c : isna c = true → is_nan (num c) = true.
Proof. by destruct c. Qed.

(** ** [summarize_metrics] *)

Section summarize.
Context {P : Pandas}.

(** C1: on a dataset with one sensor and N rows the call does not return
    a mapping with one group key and [count = N]: it raises
    [NotImplementedError]. *)
Theorem summarize_metrics_one_sensor (l : list Row) :
  summarize_metrics 0 (Some "sensor") None
    (mkStore {[ 0%nat := mkDF ["timestamp"; "sensor"; "value"; "quality"]
                              (map (λ r, <["sensor" := CStr "temp"]> r) l) ]} []) =
    Raise (NotImplementedError "summarize_metrics() must be implemented by the candidate").
Proof. reflexivity. Qed.

(** C2: whatever the dataset and the [group_by] column, existing or not,
    the call raises [NotImplementedError], which is not the [ValueError]
    of an input error. *)
Theorem summarize_metrics_missing_column (data : nat) (group_by : option string)
    (time_window : option string) (st : Store) :
  (∃ msg, summarize_metrics data group_by time_window st = Raise (NotImplementedError msg))
  ∧ ∀ msg, summarize_metrics data group_by time_window st ≠ Raise (ValueError msg).
Proof. split; [by eexists|done]. Qed.

End summarize.

(** ** [ingest_data] *)

Section ingest.
Context {P : Pandas}.

(** The frame after [pd.concat] and the assignment of the parsed
    timestamps. *)
Definition parsed (df : DataFrame) : DataFrame :=
  setitem "timestamp" (to_datetime (map (λ r, cell r "timestamp") (rows df))) df.

(** The rows that reach the statement on [quality]: those of the parsed
    frame with a time, without the repetitions of an earlier row, with a
    value. *)
Definition checked_rows (df : DataFrame) : list Row :=
  List.filter (λ r, negb (isna (cell r "value")))
    (keep_first (columns df) []
       (List.filter (λ r, negb (isna (cell r "timestamp"))) (rows (parsed df)))).

(** The column on which [.str] is taken. *)
Definition quality_column (df : DataFrame) : list Cell :=
  map (λ r, cell r "quality") (checked_rows df).

(** The exception of the f-string of the batch evaluation. *)
Definition format_error : PyErr :=
  ValueError "Invalid format specifier '.2f ' for object of type 'float'".

(** The format specification of the source is refused for every
    float. *)
Lemma format_float_refused (x : float) : format_float x ".2f " = Raise format_error.
Proof. reflexivity. Qed.

Lemma parsed_columns df : "timestamp" ∈ columns df → columns (parsed df) = columns df.
Proof. intros. unfold parsed, setitem. cbn. by apply add_column_id. Qed.

(** What [ingest_data] computes, statement by statement. *)
Lemma ingest_data_unfold batches validate st :
  ingest_data batches validate st =
    match batches with
    | [] => Raise (ValueError "Data must be a non-empty list of DataFrames")
    | _ =>
      match omap valid_batch batches with
      | [] => Raise (ValueError "All batches are empty or invalid")
      | _ =>
        let df := concat (omap valid_batch batches) in
        if decide ("timestamp" ∈ columns df) then
          if validate then
            if decide ("value" ∈ columns df) then
              if decide ("quality" ∈ columns df) then
                match str_accessor (quality_column df) with
                | Some msg => Raise (AttributeError msg)
                | None => Raise format_error
                end
              else Raise (KeyError "quality")
            else Raise (KeyError "value")
          else Ok (parsed df, st)
        else Raise (KeyError "timestamp")
      end
    end.
Proof.
  unfold ingest_data. destruct batches as [|b batches]; [done|].
  destruct (omap valid_batch (b :: batches)) as [|df0 dfs] eqn:Hv; [done|].
  set (df := concat (df0 :: dfs)). cbv zeta.
  unfold mbind at 1, Py_bind at 1, lift at 1, getitem at 1.
  destruct (decide ("timestamp" ∈ columns df)) as [Hts|Hts]; [|done].
  fold (parsed df). destruct validate; [|done].
  pose proof (parsed_columns df Hts) as Hpc.
  unfold mbind at 1, Py_bind at 1, lift at 1, dropna at 1.
  rewrite Hpc. rewrite decide_True by done.
  unfold mbind at 1, Py_bind at 1, lift at 1, dropna at 1.
  cbn [columns drop_duplicates select].
  rewrite Hpc.
  destruct (decide ("value" ∈ columns df)) as [Hv'|Hv']; [|done].
  unfold mbind at 1, Py_bind at 1, lift at 1, getitem at 1.
  cbn [columns drop_duplicates select rows]. rewrite Hpc.
  destruct (decide ("quality" ∈ columns df)) as [Hq|Hq]; [|done].
  fold (checked_rows df). fold (quality_column df).
  unfold mbind at 1, Py_bind at 1, lift at 1, str_upper at 1.
  destruct (str_accessor (quality_column df)) as [msg|]; [done|].
  unfold mbind at 1, Py_bind at 1, lift at 1, getitem at 1.
  unfold setitem at 1. cbn [columns select drop_duplicates].
  rewrite (decide_True (P := "quality" ∈ add_column (columns (parsed df)) "quality"))
    by (by rewrite Hpc, add_column_id).
  unfold mbind at 1, Py_bind at 1, lift at 1.
  by rewrite format_float_refused.
Qed.

(** A batch as the interface asks for it: a frame that is not empty and
    has the four columns of a reading. *)
Definition required_columns : list string := ["timestamp"; "sensor"; "value"; "quality"].

Definition well_formed (o : PyObj) : Prop :=
  ∃ df, o = PyDataFrame df ∧ empty df = false ∧ required_columns ⊆ columns df.

(** Some batch that passes the filter of [ingest_data] has the column
    [c]. *)
Definition has_column (batches : list PyObj) (c : string) : Prop :=
  ∃ df, PyDataFrame df ∈ batches ∧ empty df = false ∧ c ∈ columns df.

Lemma well_formed_valid_batch o :
  well_formed o → ∃ df, valid_batch o = Some df ∧ required_columns ⊆ columns df.
Proof. intros (df & -> & He & Hc). exists df. cbn. by rewrite He. Qed.

Lemma well_formed_columns batches o c :
  o ∈ batches → well_formed o → c ∈ required_columns →
  omap valid_batch batches ≠ [] ∧ c ∈ columns (concat (omap valid_batch batches)).
Proof.
  intros Ho (df & Hv & Hc)%well_formed_valid_batch Hreq.
  assert (df ∈ omap valid_batch batches) as Hdf.
  { apply list_elem_of_omap. by exists o. }
  split; [by intros Hnil; rewrite Hnil in Hdf; apply elem_of_nil in Hdf|].
  apply concat_columns_elem. exists df. split; [done|]. by apply Hc.
Qed.

Lemma well_formed_exists_columns batches c :
  Exists well_formed batches → c ∈ required_columns →
  omap valid_batch batches ≠ [] ∧ c ∈ columns (concat (omap valid_batch batches)).
Proof.
  intros (o & Ho & Hwf)%Exists_exists Hc. by apply (well_formed_columns _ o).
Qed.

Lemma valid_batch_Some o df : valid_batch o = Some df ↔ o = PyDataFrame df ∧ empty df = false.
Proof.
  destruct o as [df'|]; cbn; [|by split; [|intros [? _]]].
  destruct (empty df') eqn:He; split.
  - done.
  - intros [[= ->] ?]. congruence.
  - by intros [= ->].
  - by intros [[= ->] _].
Qed.

Lemma has_column_concat batches c :
  has_column batches c ↔ c ∈ columns (concat (omap valid_batch batches)).
Proof.
  rewrite concat_columns_elem. split.
  - intros (df & Hin & He & Hc). exists df. split; [|done].
    apply list_elem_of_omap. exists (PyDataFrame df). split; [done|].
    by apply valid_batch_Some.
  - intros (df & (o & Ho & [-> He]%valid_batch_Some)%list_elem_of_omap & Hc).
    by exists df.
Qed.

Lemma length_concat_rows dfs :
  length (rows (concat dfs)) = sum_list (map (λ df, length (rows df)) dfs).
Proof.
  unfold concat. cbn [rows]. induction dfs as [|df dfs IH]; [done|].
  cbn. by rewrite length_app, length_map, IH.
Qed.

Lemma omap_valid_batch_nil batches :
  omap valid_batch batches = [] ↔ Forall (λ o, valid_batch o = None) batches.
Proof.
  induction batches as [|o batches IH]; [by split; [constructor|]|].
  cbn. destruct (valid_batch o) as [df|] eqn:E; rewrite Forall_cons.
  - split; [done|]. intros [? _]. congruence.
  - rewrite IH. tauto.
Qed.

Lemma omap_valid_batch_idem batches :
  omap valid_batch (map PyDataFrame (omap valid_batch batches)) = omap valid_batch batches.
Proof.
  induction batches as [|o batches IH]; [done|].
  destruct o as [df|]; cbn; [|done].
  destruct (empty df) eqn:He; cbn; [done|]. by rewrite He, IH.
Qed.

(** C4: with [validate=True] a collection of well-formed batches is not
    turned into a dataset at all.  The call raises: when [.str] accepts
    the column [quality] of the rows with a time and a value, as it does
    once one of them holds a string, the [ValueError] of the format
    specification of the batch evaluation, and the [AttributeError] of
    [.str] otherwise.  No step after the batch evaluation is reached. *)
Theorem ingest_data_validate_raises (batches : list PyObj) (st : Store) :
  batches ≠ [] → Forall well_formed batches →
  ingest_data batches true st =
    Raise (match str_accessor (quality_column (concat (omap valid_batch batches))) with
           | Some msg => AttributeError msg
           | None => format_error
           end)
  ∧ ((∃ r s, r ∈ checked_rows (concat (omap valid_batch batches))
             ∧ cell r "quality" = CStr s) →
     ingest_data batches true st = Raise format_error).
Proof.
  intros Hne Hall.
  assert (Exists well_formed batches) as Hwf.
  { destruct batches as [|o batches]; [done|]. apply Forall_cons in Hall as [Ho _]. by left. }
  destruct (well_formed_exists_columns batches "timestamp" Hwf) as [Hv Hts];
    [by repeat constructor|].
  destruct (well_formed_exists_columns batches "value" Hwf) as [_ Hval];
    [by repeat constructor|].
  destruct (well_formed_exists_columns batches "quality" Hwf) as [_ Hq];
    [by repeat constructor|].
  rewrite ingest_data_unfold.
  destruct batches as [|o batches]; [done|].
  destruct (omap valid_batch (o :: batches)) as [|df0 dfs] eqn:Hvalid; [done|].
  cbv zeta. rewrite !decide_True by done. split.
  - by destruct (str_accessor _).
  - intros (r & s & Hr & Hs).
    rewrite (str_accessor_string _ s); [done|].
    unfold quality_column. rewrite <- Hs. apply list_elem_of_fmap. by exists r.
Qed.


(** C6, amended: without validation, with at least one well-formed batch
    in the collection, [ingest_data] returns, and what it filters out,
    with or without validation, are the objects that are not frames and
    the empty frames: the call gives what it gives on the collection
    without them.  A frame that lacks a column is not among them. *)
Theorem ingest_data_filters_invalid (batches : list PyObj) (st : Store) :
  Exists well_formed batches →
  (∃ D, ingest_data batches false st = Ok (D, st)
        ∧ length (rows D)
          = sum_list (map (λ df, length (rows df)) (omap valid_batch batches)))
  ∧ ∀ validate,
      ingest_data batches validate st =
        ingest_data (map PyDataFrame (omap valid_batch batches)) validate st.
Proof.
  intros Hwf.
  destruct (well_formed_exists_columns batches "timestamp" Hwf) as [Hv Hts];
    [by repeat constructor|].
  split.
  - rewrite ingest_data_unfold.
    destruct batches as [|o batches]; [by apply Exists_nil in Hwf|].
    rewrite <- length_concat_rows.
    destruct (omap valid_batch (o :: batches)) as [|df0 dfs] eqn:Hvalid; [done|].
    cbv zeta. rewrite decide_True by done. eexists. split; [done|].
    unfold parsed, setitem. cbn [rows].
    rewrite length_zip_with, to_datetime_length, length_map. lia.
  - intros validate. rewrite !ingest_data_unfold, omap_valid_batch_idem.
    destruct batches as [|o batches]; [by apply Exists_nil in Hwf|].
    by destruct (omap valid_batch (o :: batches)) as [|df0 dfs] eqn:Hvalid.
Qed.

(** [ingest_data] returns exactly when it is called with
    [validate=False] and some non-empty frame among the batches has the
    column [timestamp]. *)
Theorem ingest_data_returns_iff (batches : list PyObj) (validate : bool) (st : Store) :
  (∃ D st', ingest_data batches validate st = Ok (D, st'))
  ↔ validate = false ∧ has_column batches "timestamp".
Proof.
  rewrite ingest_data_unfold, !has_column_concat. split.
  - intros (D & st' & Hrun).
    destruct batches as [|o batches]; [done|].
    destruct (omap valid_batch (o :: batches)) as [|df0 dfs]; [done|].
    cbv zeta in Hrun.
    destruct (decide ("timestamp" ∈ _)) as [Hts|]; [|done].
    destruct validate; [|done].
    destruct (decide ("value" ∈ _)) as [Hv|]; [|done].
    destruct (decide ("quality" ∈ _)) as [Hq|]; [|done].
    by destruct (str_accessor _).
  - intros [-> Hts].
    destruct batches as [|o batches].
    { cbn in Hts. by apply elem_of_nil in Hts. }
    destruct (omap valid_batch (o :: batches)) as [|df0 dfs].
    { cbn in Hts. by apply elem_of_nil in Hts. }
    cbv zeta. rewrite decide_True by done. by eexists _, _.
Qed.

Ltac outcomes :=
  repeat match goal with
         | |- _ ∧ _ => split
         | |- _ ↔ _ => split
         | |- ∀ _ : string, _ => intros ?
         end;
  try (intros ? [= <-]; rewrite !elem_of_cons; by eauto 10);
  try (by intros; intuition (done || congruence || (exfalso; by eapply not_elem_of_nil))).

(** The exceptions of [ingest_data], in the order in which the source
    meets them: the two [ValueError]s of the guards, the [KeyError] of
    the first column that no batch has, the [AttributeError] of [.str] on
    a column [quality] that it does not accept, and the [ValueError] of
    the format specification, which every other call with
    [validate=True] ends in. *)
Theorem ingest_data_exceptions (batches : list PyObj) (validate : bool) (st : Store) :
  (ingest_data batches validate st
     = Raise (ValueError "Data must be a non-empty list of DataFrames")
   ↔ batches = [])
  ∧ (ingest_data batches validate st = Raise (ValueError "All batches are empty or invalid")
     ↔ batches ≠ [] ∧ Forall (λ o, valid_batch o = None) batches)
  ∧ (ingest_data batches validate st = Raise (KeyError "timestamp")
     ↔ omap valid_batch batches ≠ [] ∧ ¬ has_column batches "timestamp")
  ∧ (ingest_data batches validate st = Raise (KeyError "value")
     ↔ validate = true ∧ has_column batches "timestamp" ∧ ¬ has_column batches "value")
  ∧ (ingest_data batches validate st = Raise (KeyError "quality")
     ↔ validate = true ∧ has_column batches "timestamp" ∧ has_column batches "value"
       ∧ ¬ has_column batches "quality")
  ∧ (∀ msg, ingest_data batches validate st = Raise (AttributeError msg)
     ↔ validate = true ∧ has_column batches "timestamp" ∧ has_column batches "value"
       ∧ has_column batches "quality"
       ∧ str_accessor (quality_column (concat (omap valid_batch batches))) = Some msg)
  ∧ (ingest_data batches validate st = Raise format_error
     ↔ validate = true ∧ has_column batches "timestamp" ∧ has_column batches "value"
       ∧ has_column batches "quality"
       ∧ str_accessor (quality_column (concat (omap valid_batch batches))) = None)
  ∧ ∀ e, ingest_data batches validate st = Raise e →
      e ∈ [ValueError "Data must be a non-empty list of DataFrames";
           ValueError "All batches are empty or invalid";
           KeyError "timestamp"; KeyError "value"; KeyError "quality"; format_error]
      ∨ ∃ msg, e = AttributeError msg.
Proof.
  pose proof (omap_valid_batch_nil batches) as Hnone.
  rewrite ingest_data_unfold. setoid_rewrite has_column_concat.
  destruct batches as [|o batches].
  { cbn. rewrite !elem_of_nil. outcomes. }
  destruct (omap valid_batch (o :: batches)) as [|df0 dfs] eqn:Hv.
  { cbn [concat foldl columns]. rewrite !elem_of_nil. outcomes. }
  assert (¬ Forall (λ o, valid_batch o = None) (o :: batches)) as Hsome.
  { by intros ?%Hnone. }
  cbv zeta. set (df := concat (df0 :: dfs)).
  destruct (decide ("timestamp" ∈ columns df)) as [Hts|Hts]; [|outcomes].
  destruct validate; [|outcomes].
  destruct (decide ("value" ∈ columns df)) as [Hval|Hval]; [|outcomes].
  destruct (decide ("quality" ∈ columns df)) as [Hq|Hq]; [|outcomes].
  destruct (str_accessor (quality_column df)) as [msg|]; outcomes.
Qed.

(** *** Without validation *)

Lemma valid_batch_rows o df : valid_batch o = Some df → rows df ≠ [].
Proof.
  intros [-> He]%valid_batch_Some. unfold empty in He.
  destruct (columns df); [done|]. by destruct (rows df).
Qed.

Lemma concat_valid_rows batches :
  omap valid_batch batches ≠ [] → rows (concat (omap valid_batch batches)) ≠ [].
Proof.
  intros Hne.
  destruct (omap valid_batch batches) as [|df dfs] eqn:Hv; [done|].
  assert (df ∈ omap valid_batch batches) as Hdf by (rewrite Hv; by left).
  apply list_elem_of_omap in Hdf as (o & _ & Ho). apply valid_batch_rows in Ho.
  unfold concat. cbn. destruct (rows df); [done|]. done.
Qed.

(** With [validate=False] a call that returns gives the concatenation
    of the non-empty frames with its timestamps parsed and nothing else
    changed: the same columns (no [is_outlier]), as many rows as the
    frames have together, at least one, each row with a time or [NaT] in
    [timestamp] and the cells of the concatenated row in the other
    columns.  Nothing is printed. *)
Theorem ingest_data_no_validate (batches : list PyObj) (st st' : Store) (D : DataFrame) :
  ingest_data batches false st = Ok (D, st') →
  st' = st
  ∧ columns D = columns (concat (omap valid_batch batches))
  ∧ length (rows D) = sum_list (map (λ df, length (rows df)) (omap valid_batch batches))
  ∧ rows D ≠ []
  ∧ Forall2 (λ r r0, is_datetime (cell r "timestamp")
                     ∧ ∀ c, c ≠ "timestamp" → cell r c = cell r0 c)
            (rows D) (rows (concat (omap valid_batch batches))).
Proof.
  rewrite ingest_data_unfold. intros Hrun.
  destruct batches as [|o batches]; [done|].
  pose proof (concat_valid_rows (o :: batches)) as Hrows.
  rewrite <- length_concat_rows.
  destruct (omap valid_batch (o :: batches)) as [|df0 dfs]; [done|].
  set (df := concat (df0 :: dfs)) in *. cbv zeta in Hrun.
  destruct (decide ("timestamp" ∈ columns df)) as [Hts|]; [|done].
  injection Hrun as <- <-.
  assert (length (rows (parsed df)) = length (rows df)) as Hlen.
  { unfold parsed, setitem. cbn [rows].
    rewrite length_zip_with, to_datetime_length, length_map. lia. }
  split; [done|]. split; [by apply parsed_columns|]. split; [done|]. split.
  { intros E. rewrite E in Hlen. destruct (rows df); [by apply Hrows|done]. }
  unfold parsed, setitem. cbn [rows].
  pose proof (to_datetime_dtype (map (λ r, cell r "timestamp") (rows df))) as Hdt.
  pose proof (to_datetime_length (map (λ r, cell r "timestamp") (rows df))) as Hl.
  rewrite length_map in Hl.
  revert Hdt Hl. generalize (to_datetime (map (λ r, cell r "timestamp") (rows df))).
  generalize (rows df). clear.
  induction l as [|r l IH]; intros [|v vals] Hdt Hl; try done; cbn.
  apply Forall_cons in Hdt as [Hv Hdt]. constructor; [|apply IH; [done|by injection Hl]].
  split; [by rewrite cell_insert|]. intros c Hc. by rewrite cell_insert_ne.
Qed.

Lemma parsed_concat_row dfs r :
  "timestamp" ∈ columns (concat dfs) → r ∈ rows (parsed (concat dfs)) →
  (∃ v, r !! "timestamp" = Some v ∧ is_datetime v)
  ∧ ∀ k, is_Some (r !! k) → k ∈ columns (concat dfs).
Proof.
  intros Hts. unfold parsed, setitem. cbn [rows].
  intros (r0 & v & -> & Hr0 & Hv)%elem_of_zip_with. split.
  - exists v. rewrite lookup_insert_eq. split; [done|].
    pose proof (to_datetime_dtype (map (λ r, cell r "timestamp") (rows (concat dfs)))) as Hd.
    by eapply Forall_forall in Hd.
  - intros k [<-|[_ Hk]]%lookup_insert_is_Some; [done|]. by eapply concat_rows_keys.
Qed.

Lemma map_id_Forall {A} (f : A → A) (l : list A) :
  Forall (λ x, f x = x) l → map f l = l.
Proof. induction 1 as [|x l Hx _ IH]; [done|]. cbn. by rewrite Hx, IH. Qed.

Lemma parsed_datetime df :
  Forall (λ r : Row, ∃ v, r !! "timestamp" = Some v ∧ is_datetime v) (rows df) →
  "timestamp" ∈ columns df → parsed df = df.
Proof.
  intros Hc Hts. destruct df as [cols l]. unfold parsed, setitem. cbn in *.
  rewrite add_column_id by done. f_equal.
  rewrite to_datetime_datetime.
  2:{ apply Forall_map. eapply Forall_impl; [exact Hc|]. intros r (v & Hv & Hd).
      unfold cell. by rewrite Hv. }
  rewrite zip_with_map_r. apply map_id_Forall.
  eapply Forall_impl; [exact Hc|]. intros r (v & Hv & _).
  apply insert_id. unfold cell. by rewrite Hv.
Qed.

(** The output of [ingest_data] without validation is accepted as it is
    by [ingest_data] without validation: the second call returns the
    same frame and prints nothing. *)
Theorem ingest_data_output_accepted (batches : list PyObj) (st st1 st2 : Store)
    (D : DataFrame) :
  ingest_data batches false st = Ok (D, st1) →
  ingest_data [PyDataFrame D] false st2 = Ok (D, st2).
Proof.
  intros Hrun.
  assert ("timestamp" ∈ columns D ∧ NoDup (columns D) ∧ rows D ≠ []
          ∧ Forall (λ r : Row, (∃ v, r !! "timestamp" = Some v ∧ is_datetime v)
                               ∧ ∀ k, is_Some (r !! k) → k ∈ columns D) (rows D))
    as (Hts & Hnd & Hrows & Hr).
  { rewrite ingest_data_unfold in Hrun.
    destruct batches as [|o batches]; [done|].
    pose proof (concat_valid_rows (o :: batches)) as Hne.
    destruct (omap valid_batch (o :: batches)) as [|df0 dfs]; [done|].
    set (df := concat (df0 :: dfs)) in *. cbv zeta in Hrun.
    destruct (decide ("timestamp" ∈ columns df)) as [Hts|]; [|done].
    injection Hrun as <- _. rewrite parsed_columns by done.
    split; [done|]. split; [apply concat_columns_NoDup|]. split.
    { unfold parsed, setitem. cbn [rows]. intros E.
      apply (f_equal length) in E.
      rewrite length_zip_with, to_datetime_length, length_map in E.
      destruct (rows df); [by apply Hne|]. cbn in E. lia. }
    apply Forall_forall. intros r Hr. by apply parsed_concat_row. }
  rewrite ingest_data_unfold.
  assert (empty D = false) as He.
  { unfold empty. destruct (columns D); [by apply elem_of_nil in Hts|]. by destruct (rows D). }
  assert (omap valid_batch [PyDataFrame D] = [D]) as ->.
  { cbn. by rewrite He. }
  cbv zeta. rewrite concat_singleton; [|done|].
  2:{ eapply Forall_impl; [exact Hr|]. by intros r [_ ?]. }
  rewrite decide_True by done.
  rewrite parsed_datetime; [done| |done].
  eapply Forall_impl; [exact Hr|]. by intros r [? _].
Qed.

End ingest.

(** ** [detect_anomalies] *)

(** *** Statements that write one frame only *)

Definition writes_only (l : nat) {A} (m : Py A) : Prop :=
  ∀ st a st', m st = Ok (a, st') →
    stdout st' = stdout st ∧ ∀ l', l' ≠ l → frames st' !! l' = frames st !! l'.

Lemma writes_only_ret l {A} (a : A) : writes_only l (mret a).
Proof. intros st a' st' [= _ <-]. done. Qed.

Lemma writes_only_bind l {A B} (m : Py A) (k : A → Py B) :
  writes_only l m → (∀ a, writes_only l (k a)) → writes_only l (m ≫= k).
Proof.
  intros Hm Hk st b st'. unfold mbind, Py_bind.
  destruct (m st) as [[a st1]|e] eqn:Hrun; [|done].
  intros Hk'. destruct (Hm _ _ _ Hrun) as [Ho Hf]. destruct (Hk _ _ _ _ Hk') as [Ho' Hf'].
  split; [congruence|]. intros l' Hl'. by rewrite Hf', Hf.
Qed.

Lemma writes_only_frame l l' : writes_only l (frame l').
Proof. intros st a st' [= _ <-]. done. Qed.

Lemma writes_only_lift l {A} (r : Result A) : writes_only l (lift r).
Proof. intros st a st'. unfold lift. destruct r; [|done]. intros [= _ <-]. done. Qed.

Lemma writes_only_update_frame l f : writes_only l (update_frame l f).
Proof.
  intros st a st' [= _ <-]. cbn. split; [done|].
  intros l' Hl'. by rewrite lookup_insert_ne.
Qed.

Lemma writes_only_assign l c e : writes_only l (assign l c e).
Proof.
  unfold assign. apply writes_only_bind; [apply writes_only_frame|]. intros s.
  apply writes_only_bind; [apply writes_only_lift|]. intros vals.
  apply writes_only_update_frame.
Qed.

Lemma assign_run l c e st :
  assign l c e st =
    match e (frames st !!! l) with
    | Ok vals =>
        Ok (tt, mkStore (<[l := setitem c vals (frames st !!! l)]> (frames st)) (stdout st))
    | Raise err => Raise err
    end.
Proof.
  unfold assign, mbind, Py_bind, frame, lift, update_frame.
  by destruct (e (frames st !!! l)).
Qed.

Create HintDb py discriminated.
#[local] Hint Resolve writes_only_ret writes_only_frame writes_only_lift
  writes_only_update_frame writes_only_assign : py.
#[local] Hint Extern 2 (writes_only _ (_ ≫= _)) =>
  apply writes_only_bind; [|intros ?] : py.

Section detect.
Context {P : Pandas}.

Lemma flat_scores_writes_only l : writes_only l (flat_scores l).
Proof. unfold flat_scores. auto with py. Qed.

Lemma score_writes_only l method valid_values threshold :
  writes_only l (score l method valid_values threshold).
Proof.
  unfold score, zscore, iqr, rolling.
  repeat case_match; auto 20 using flat_scores_writes_only with py.
Qed.

(** *** The merge of the scores *)

Definition fill_cell (v c : Cell) : Cell := if isna c then v else c.

Definition fill_row (r : Row) : Row :=
  let r1 := <["is_anomaly" := fill_cell (CBool false) (cell r "is_anomaly")]> r in
  let r2 := <["anomaly_score" := fill_cell (CNum 0) (cell r1 "anomaly_score")]> r1 in
  <["detection_method" := fill_cell (CStr "none") (cell r2 "detection_method")]> r2.

Definition filled (m : DataFrame) : DataFrame := mkDF (columns m) (map fill_row (rows m)).

Definition merge_keys : list string := ["timestamp"; "sensor"].

Lemma merge_back_unfold data sensor_df st :
  merge_back data sensor_df st =
    match project ("timestamp" :: "sensor" :: anomaly_columns) (frames st !!! sensor_df) with
    | Raise e => Raise e
    | Ok scores =>
      match merge_left merge_keys (frames st !!! data) scores with
      | Raise e => Raise e
      | Ok m =>
        if decide ("is_anomaly" ∈ columns m) then
          if decide ("anomaly_score" ∈ columns m) then
            if decide ("detection_method" ∈ columns m) then
              Ok (fresh (dom (frames st)),
                  mkStore (<[fresh (dom (frames st)) := filled m]> (frames st)) (stdout st))
            else Raise (KeyError "detection_method")
          else Raise (KeyError "anomaly_score")
        else Raise (KeyError "is_anomaly")
      end
    end.
Proof.
  unfold merge_back.
  unfold mbind at 1, Py_bind at 1, frame at 1.
  unfold mbind at 1, Py_bind at 1, lift at 1.
  destruct (project _ _) as [scores|e]; [|done].
  unfold mbind at 1, Py_bind at 1, frame at 1.
  unfold mbind at 1, Py_bind at 1, lift at 1. fold merge_keys.
  destruct (merge_left _ _ _) as [m|e]; [|done].
  unfold mbind at 1, Py_bind at 1, new_frame at 1. cbv zeta.
  set (l2 := fresh (dom (frames st))).
  unfold mbind at 1, Py_bind at 1. rewrite assign_run. cbn [frames stdout].
  rewrite lookup_total_insert_eq.
  unfold mbind at 1, Result_bind at 1, getitem at 1.
  destruct (decide ("is_anomaly" ∈ columns m)) as [H1|]; [|done].
  unfold mret at 1, Result_ret at 1. rewrite insert_insert_eq.
  unfold mbind at 1, Py_bind at 1. rewrite assign_run. cbn [frames stdout].
  rewrite lookup_total_insert_eq.
  unfold mbind at 1, Result_bind at 1, getitem at 1.
  cbn [columns setitem]. rewrite (add_column_id _ _ H1).
  destruct (decide ("anomaly_score" ∈ columns m)) as [H2|]; [|done].
  unfold mret at 1, Result_ret at 1. rewrite insert_insert_eq.
  unfold mbind at 1, Py_bind at 1. rewrite assign_run. cbn [frames stdout].
  rewrite lookup_total_insert_eq.
  unfold mbind at 1, Result_bind at 1, getitem at 1.
  cbn [columns setitem]. rewrite (add_column_id _ _ H1), (add_column_id _ _ H2).
  destruct (decide ("detection_method" ∈ columns m)) as [H3|]; [|done].
  unfold mret at 1, Result_ret at 1. rewrite insert_insert_eq.
  unfold mret, Py_ret. f_equal. f_equal. f_equal. f_equal.
  unfold filled, setitem, fillna. cbn [columns rows].
  rewrite (add_column_id _ _ H1), (add_column_id _ _ H2), (add_column_id _ _ H3).
  f_equal.
  repeat (rewrite List.map_map || rewrite zip_with_map_r).
  reflexivity.
Qed.

(** *** [detect_anomalies], statement by statement *)

Definition sensor_rows (sensor_name : string) (d : DataFrame) : DataFrame :=
  select (λ r, str_eqb (cell r "sensor") sensor_name) d.

Definition valid_values (sensor_name : string) (d : DataFrame) : list float :=
  dropna_floats (map (λ r, num (cell r "value")) (rows (sensor_rows sensor_name d))).

Lemma detect_anomalies_unfold data sensor_name method threshold st :
  detect_anomalies data sensor_name method threshold st =
    let d := frames st !!! data in
    let l := fresh (dom (frames st)) in
    if decide ("sensor" ∈ columns d) then
      if existsb (λ r, str_eqb (cell r "sensor") sensor_name) (rows d) then
        if bool_decide (method ∈ supported_methods) then
          if decide ("value" ∈ columns d) then
            if (length (valid_values sensor_name d) <? 2)%nat
            then Raise (ValueError ("Insufficient data for anomaly detection for sensor '"
                                    +:+ sensor_name +:+ "'"))
            else if empty (sensor_rows sensor_name d)
            then Raise (ValueError ("No data available for sensor '" +:+ sensor_name +:+ "'"))
            else
              match score l method (valid_values sensor_name d) threshold
                      (mkStore (<[l := sensor_rows sensor_name d]> (frames st)) (stdout st)) with
              | Raise e => Raise e
              | Ok (_, st2) =>
                  merge_back data l
                    (mkStore (<[l := setitem_scalar "detection_method" (CStr method)
                                       (frames st2 !!! l)]> (frames st2))
                             (stdout st2))
              end
          else Raise (KeyError "value")
        else Raise (ValueError ("Method '" +:+ method +:+ "' not supported. Choose from "
                                +:+ "['zscore', 'iqr', 'rolling']"))
      else Raise (ValueError ("Sensor '" +:+ sensor_name +:+ "' not found in the data"))
    else Raise (KeyError "sensor").
Proof.
  unfold detect_anomalies. cbv zeta.
  unfold mbind at 1, Py_bind at 1, frame at 1.
  unfold mbind at 1, Py_bind at 1, lift at 1, getitem at 1.
  destruct (decide ("sensor" ∈ columns (frames st !!! data))); [|done].
  rewrite existsb_fmap.
  destruct (existsb _ _); [|done]. cbn [negb].
  destruct (bool_decide _); [|done]. cbn [negb].
  unfold mbind at 1, Py_bind at 1, new_frame at 1. cbv zeta.
  unfold mbind at 1, Py_bind at 1, frame at 1. cbn [frames stdout].
  rewrite lookup_total_insert_eq. fold (sensor_rows sensor_name (frames st !!! data)).
  unfold mbind at 1, Py_bind at 1, lift at 1, getitem at 1.
  change (columns (sensor_rows sensor_name (frames st !!! data)))
    with (columns (frames st !!! data)).
  destruct (decide ("value" ∈ columns (frames st !!! data))); [|done].
  rewrite List.map_map. fold (valid_values sensor_name (frames st !!! data)).
  destruct (_ <? _)%nat; [done|].
  destruct (empty _); [done|].
  unfold mbind at 1, Py_bind at 1.
  destruct (score _ _ _ _ _) as [[[] st2]|err]; [|done].
  unfold mbind at 1, Py_bind at 1, update_frame at 1. reflexivity.
Qed.

Definition score_columns : list string := "timestamp" :: "sensor" :: anomaly_columns.

Lemma anomaly_columns_inv c :
  c ∈ anomaly_columns → c = "is_anomaly" ∨ c = "anomaly_score" ∨ c = "detection_method".
Proof.
  unfold anomaly_columns. rewrite !elem_of_cons, elem_of_nil. tauto.
Qed.

Lemma overlap_scores d scores c :
  columns scores = score_columns →
  overlap merge_keys d scores c = bool_decide (c ∈ columns d) && bool_decide (c ∈ anomaly_columns).
Proof.
  intros Hcols. unfold overlap. rewrite Hcols, <- andb_assoc. f_equal.
  destruct (decide (c ∈ anomaly_columns)) as [Hc|Hc].
  - rewrite (bool_decide_true (c ∈ anomaly_columns)) by done.
    apply anomaly_columns_inv in Hc as [->|[->| ->]]; by vm_compute.
  - rewrite (bool_decide_false (c ∈ anomaly_columns)) by done.
    destruct (decide (c ∈ merge_keys)) as [Hk|Hk].
    { rewrite (bool_decide_true (c ∈ merge_keys)) by done. apply andb_false_r. }
    rewrite (bool_decide_false (c ∈ score_columns)); [done|].
    intros [->|[->|?]%elem_of_cons]%elem_of_cons; [| |done]; apply Hk; by repeat constructor.
Qed.

Lemma suffix_not_anomaly c c0 :
  c ∈ anomaly_columns → c0 ∈ anomaly_columns → c +:+ "_x" ≠ c0 ∧ c +:+ "_y" ≠ c0.
Proof.
  intros [->|[->| ->]]%anomaly_columns_inv [->|[->| ->]]%anomaly_columns_inv; by split.
Qed.

(** A column that [data] already has among the three is renamed by the
    merge, on both sides. *)
Lemma merge_left_clash d scores m c0 :
  columns scores = score_columns →
  merge_left merge_keys d scores = Ok m →
  c0 ∈ anomaly_columns → c0 ∈ columns m → c0 ∉ columns d.
Proof.
  intros Hcols Hm Hc0 Hin Hd.
  unfold merge_left in Hm. destruct (List.filter _ merge_keys); [|done].
  destruct (existsb _ _); [done|]. injection Hm as <-. cbn [columns] in Hin.
  assert (overlap merge_keys d scores c0 = true) as Ho0.
  { rewrite overlap_scores by done. by rewrite !bool_decide_true. }
  assert (∀ c, overlap merge_keys d scores c = true → c ∈ anomaly_columns) as Hov.
  { intros c. rewrite overlap_scores by done.
    by intros [_ ?%bool_decide_eq_true]%andb_true_iff. }
  apply elem_of_app in Hin as [Hin|Hin];
    apply list_elem_of_fmap in Hin as (c & Hc & _); unfold suffixed in Hc;
    destruct (overlap merge_keys d scores c) eqn:Ho.
  - by destruct (suffix_not_anomaly c c0 (Hov c Ho) Hc0) as [? _].
  - congruence.
  - by destruct (suffix_not_anomaly c c0 (Hov c Ho) Hc0) as [_ ?].
  - congruence.
Qed.

Lemma right_columns_scores scores :
  columns scores = score_columns → right_columns merge_keys scores = anomaly_columns.
Proof. intros Hcols. unfold right_columns. by rewrite Hcols. Qed.

Lemma fill_row_cell r c : c ∉ anomaly_columns → cell (fill_row r) c = cell r c.
Proof.
  intros Hc. unfold fill_row. cbv zeta.
  rewrite !cell_insert_ne; [done|intros <-; apply Hc; by repeat constructor..].
Qed.

Lemma fill_row_is_anomaly r :
  cell (fill_row r) "is_anomaly" = fill_cell (CBool false) (cell r "is_anomaly").
Proof.
  unfold fill_row. cbv zeta.
  rewrite (cell_insert_ne _ "detection_method"), (cell_insert_ne _ "anomaly_score") by done.
  apply cell_insert.
Qed.

Lemma fill_row_anomaly_score r :
  cell (fill_row r) "anomaly_score" = fill_cell (CNum 0) (cell r "anomaly_score").
Proof.
  unfold fill_row. cbv zeta.
  rewrite (cell_insert_ne _ "detection_method") by done.
  rewrite cell_insert. by rewrite cell_insert_ne.
Qed.

Lemma fill_row_detection_method r :
  cell (fill_row r) "detection_method" = fill_cell (CStr "none") (cell r "detection_method").
Proof.
  unfold fill_row. cbv zeta. rewrite cell_insert.
  by rewrite (cell_insert_ne _ "anomaly_score"), (cell_insert_ne _ "is_anomaly").
Qed.


(** *** The branch of a method without spread *)

Lemma flat_scores_run l st :
  flat_scores l st =
    Ok (tt, mkStore (<[l := setitem_scalar "is_anomaly" (CBool false)
                              (setitem_scalar "anomaly_score" (CNum 0) (frames st !!! l))]>
                       (frames st))
                    (stdout st)).
Proof.
  unfold flat_scores, mbind, Py_bind, update_frame. cbn [frames stdout].
  by rewrite lookup_total_insert_eq, insert_insert_eq.
Qed.

(** *** The keys of [sensor_df] through the scoring statements *)

Definition key (r : Row) : Cell * Cell := (cell r "timestamp", cell r "sensor").

Definition same_keys (s s' : DataFrame) : Prop :=
  map key (rows s') = map key (rows s).

Definition keeps_keys (l : nat) {A} (m : Py A) : Prop :=
  ∀ st a st', m st = Ok (a, st') → same_keys (frames st !!! l) (frames st' !!! l).

Lemma keeps_keys_bind l {A B} (m : Py A) (k : A → Py B) :
  keeps_keys l m → (∀ a, keeps_keys l (k a)) → keeps_keys l (m ≫= k).
Proof.
  intros Hm Hk st b st'. unfold mbind, Py_bind.
  destruct (m st) as [[a st1]|e] eqn:Hrun; [|done].
  intros Hk'. unfold same_keys. rewrite (Hk _ _ _ _ Hk'). exact (Hm _ _ _ Hrun).
Qed.

Lemma keeps_keys_ret l {A} (a : A) : keeps_keys l (mret a).
Proof. by intros st a' st' [= _ <-]. Qed.

Lemma key_insert r c v : c ≠ "timestamp" → c ≠ "sensor" → key (<[c := v]> r) = key r.
Proof. intros. unfold key. by rewrite !cell_insert_ne. Qed.

Lemma keys_zip_with c (l : list Row) (vals : list Cell) :
  c ≠ "timestamp" → c ≠ "sensor" → length vals = length l →
  map key (zip_with (λ r v, <[c := v]> r) l vals) = map key l.
Proof.
  intros ? ?. revert vals. induction l as [|r l IH]; intros [|v vals]; cbn; try done.
  intros [= Hlen]. by rewrite key_insert, IH.
Qed.

Lemma keeps_keys_assign l c e :
  c ≠ "timestamp" → c ≠ "sensor" →
  (∀ s vals, e s = Ok vals → length vals = length (rows s)) →
  keeps_keys l (assign l c e).
Proof.
  intros ? ? He st [] st'. rewrite assign_run.
  destruct (e (frames st !!! l)) as [vals|err] eqn:E; [|done].
  intros [= <-]. cbn [frames]. rewrite lookup_total_insert_eq.
  unfold same_keys, setitem. cbn [rows]. apply keys_zip_with; [done..|]. by apply He.
Qed.

Lemma keeps_keys_scalar l c v :
  c ≠ "timestamp" → c ≠ "sensor" → keeps_keys l (update_frame l (setitem_scalar c v)).
Proof.
  intros ? ? st [] st' [= <-]. cbn [frames]. rewrite lookup_total_insert_eq.
  unfold same_keys, setitem_scalar. cbn [rows]. rewrite List.map_map.
  apply map_ext. intros r. by apply key_insert.
Qed.

Lemma keeps_keys_drop l cs :
  "timestamp" ∉ cs → "sensor" ∉ cs → keeps_keys l (update_frame l (drop_columns cs)).
Proof.
  intros Ht Hs st [] st' [= <-]. cbn [frames]. rewrite lookup_total_insert_eq.
  unfold same_keys, drop_columns. cbn [rows]. rewrite List.map_map.
  apply map_ext. intros r. unfold key, cell.
  assert (∀ k, k ∉ cs → filter (λ kv : string * Cell, kv.1 ∉ cs) r !! k = r !! k) as Hk.
  { intros k Hn. destruct (r !! k) as [v|] eqn:E.
    - by apply map_lookup_filter_Some_2.
    - apply map_lookup_filter_None_2. by left. }
  by rewrite !Hk.
Qed.

(** The series assigned by the scoring statements have one cell per row. *)
Ltac series_length :=
  intros ? ?; unfold mbind, Result_bind, getitem;
  repeat case_decide; try done;
  unfold mret, Result_ret; intros [= <-];
  rewrite ?length_map, ?length_zip_with, ?length_zip, ?length_map,
          ?rolling_mean_length, ?rolling_std_length, ?length_map;
  lia.

Ltac keeps_keys :=
  first [ apply keeps_keys_ret
        | apply keeps_keys_scalar; done
        | apply keeps_keys_drop;
            by intros ?%list_elem_of_In; cbn in *; intuition discriminate
        | apply keeps_keys_assign; [done|done|series_length]
        | apply keeps_keys_bind; [keeps_keys|intros ?; keeps_keys] ].

Lemma score_keeps_keys l method valid_values threshold :
  keeps_keys l (score l method valid_values threshold).
Proof.
  unfold score, zscore, iqr, rolling, flat_scores.
  repeat case_match; keeps_keys.
Qed.

(** Every time and sensor is the key of one row of the sensor at most. *)
Definition unique_keys (l : list Row) : Prop :=
  ∀ r, length (List.filter (λ r', row_eqb merge_keys r r') l) ≤ 1.

Lemma cell_eqb_time c t : cell_eqb c (CTime t) = true → c = CTime t.
Proof.
  destruct c as [|t'| |x|]; cbn; rewrite ?andb_false_r; try done.
  by intros ->%Z.eqb_eq.
Qed.

Lemma unique_keys_times (l : list Row) :
  Forall (λ r, ∃ t, cell r "timestamp" = CTime t) l →
  NoDup (map (λ r, cell r "timestamp") l) → unique_keys l.
Proof.
  intros Ht Hnd r. induction Ht as [|r0 l [t0 Ht0] Ht IH]; [cbn; lia|].
  apply NoDup_cons in Hnd as [Hr0 Hnd]. cbn [List.filter].
  destruct (row_eqb merge_keys r r0) eqn:E; [|by apply IH].
  rewrite List_filter_none; [done|].
  apply Forall_forall. intros r1 Hr1. apply not_true_is_false. intros E1.
  apply Hr0. apply list_elem_of_fmap. exists r1. split; [|done].
  unfold row_eqb, merge_keys in E, E1. cbn [forallb] in E, E1.
  apply andb_true_iff in E as [E _]. apply andb_true_iff in E1 as [E1 _].
  eapply Forall_forall in Ht as [t1 Ht1]; [|done]. rewrite Ht0, Ht1 in *.
  apply cell_eqb_time in E, E1. congruence.
Qed.

Lemma filter_keys r (l l' : list Row) :
  map key l = map key l' →
  length (List.filter (λ r', row_eqb merge_keys r r') l)
  = length (List.filter (λ r', row_eqb merge_keys r r') l').
Proof.
  revert l'. induction l as [|a l IH]; intros [|a' l'] Hmap; try done.
  cbn [map] in Hmap. injection Hmap as Ht Hs Hl. cbn [List.filter].
  assert (row_eqb merge_keys r a = row_eqb merge_keys r a') as ->.
  { unfold row_eqb, merge_keys. cbn [forallb]. by rewrite Ht, Hs. }
  destruct (row_eqb _ _ _); cbn [length]; by rewrite (IH l').
Qed.

Lemma length_bind_singletons {A B} (f : A → list B) (l : list A) :
  (∀ a, a ∈ l → length (f a) = 1) → length (l ≫= f) = length l.
Proof.
  induction l as [|a l IH]; intros Hf; [done|]. cbn.
  rewrite length_app, Hf, IH; [done| |by left]. intros. apply Hf. by right.
Qed.

(** A call of [detect_anomalies] that returns, on a frame in which no
    two rows of the sensor have the same time, returns a frame with as
    many rows as its input.  (With two such rows, as in [same_time], it
    does not.) *)
Lemma detect_anomalies_row_count_unique_keys (data : nat) (sensor_name method : string)
    (threshold : float) (st st' : Store) (d : DataFrame) (res : nat) :
  frames st !! data = Some d →
  detect_anomalies data sensor_name method threshold st = Ok (res, st') →
  unique_keys (rows (sensor_rows sensor_name d)) →
  length (rows (frames st' !!! res)) = length (rows d).
Proof.
  intros Hd Hrun Huniq. rewrite detect_anomalies_unfold in Hrun. cbv zeta in Hrun.
  rewrite (lookup_total_correct _ _ _ Hd) in Hrun.
  set (l1 := fresh (dom (frames st))) in *.
  assert (frames st !! l1 = None) as Hl1.
  { apply not_elem_of_dom. apply is_fresh. }
  destruct (decide ("sensor" ∈ columns d)) as [Hsensor|]; [|done].
  destruct (existsb _ _); [|done].
  destruct (bool_decide _); [|done].
  destruct (decide ("value" ∈ columns d)) as [Hvalue|]; [|done].
  destruct (_ <? _)%nat; [done|].
  destruct (empty _); [done|].
  destruct (score _ _ _ _ _) as [[[] st2]|err] eqn:Hscore; [|done].
  pose proof (score_keeps_keys _ _ _ _ _ _ _ Hscore) as Hkeys.
  apply score_writes_only in Hscore as [Hout Hfr]. cbn [frames stdout] in Hout, Hfr, Hkeys.
  rewrite lookup_total_insert_eq in Hkeys.
  rewrite merge_back_unfold in Hrun. cbn [frames stdout] in Hrun.
  rewrite lookup_total_insert_eq in Hrun.
  set (s := setitem_scalar _ _ _) in *.
  assert (<[l1 := s]> (frames st2) !! data = Some d) as Hdata.
  { assert (data ≠ l1) by congruence.
    rewrite lookup_insert_ne by done. rewrite Hfr by done. by rewrite lookup_insert_ne. }
  rewrite (lookup_total_correct _ _ _ Hdata) in Hrun.
  destruct (project _ _) as [scores|err] eqn:Hproj; [|done].
  apply project_inv in Hproj as [Hscores _].
  assert (columns scores = score_columns) as Hcols by by rewrite Hscores.
  destruct (merge_left _ _ _) as [m|err] eqn:Hmerge; [|done].
  destruct (decide ("is_anomaly" ∈ columns m)) as [H1|]; [|done].
  destruct (decide ("anomaly_score" ∈ columns m)) as [H2|]; [|done].
  destruct (decide ("detection_method" ∈ columns m)) as [H3|]; [|done].
  injection Hrun as <- <-. cbn [frames]. rewrite lookup_total_insert_eq.
  assert (disjoint_columns merge_keys d scores) as Hdisj.
  { intros c Hc. rewrite Hcols.
    intros [->|[->|Ha]%elem_of_cons]%elem_of_cons; [by repeat constructor..|].
    exfalso. eapply merge_left_clash; [done..| |done].
    apply anomaly_columns_inv in Ha as [->|[->| ->]]; done. }
  pose proof (merge_left_keys _ _ _ _ Hmerge) as Hk.
  rewrite merge_left_disjoint in Hmerge by done. injection Hmerge as <-.
  unfold filled. cbn [rows]. rewrite length_map.
  apply length_bind_singletons. intros l _. unfold matches.
  assert (length (List.filter (λ r, row_eqb merge_keys l r) (rows scores)) ≤ 1) as Hle.
  { rewrite (filter_keys l _ (rows (sensor_rows sensor_name d))); [apply Huniq|].
    rewrite <- Hkeys, Hscores. cbn [rows]. unfold s, setitem_scalar. cbn [rows].
    rewrite !List.map_map. apply map_ext. intros r. unfold key.
    rewrite !cell_restrict by (by repeat constructor). by rewrite !cell_insert_ne. }
  destruct (List.filter _ _) as [|r0 [|r1 ms]]; cbn in *; [done|done|lia].
Qed.

(** *** The scores of the rows without value *)

Definition scored_row (sc : Cell → float) (flag : Cell → bool) (r : Row) : Row :=
  <["is_anomaly" := CBool (flag (cell r "value"))]>
    (<["anomaly_score" := CNum (sc (cell r "value"))]> r).

(** A missing value is not flagged and its score is missing or zero. *)
Definition neutral_on_missing (sc : Cell → float) (flag : Cell → bool) : Prop :=
  ∀ c, isna c = true → flag c = false ∧ (is_nan (sc c) = true ∨ sc c = 0%float).

Lemma assign_twice_run l st (f g : Cell → Cell) c1 c2 src1 src2 :
  src1 ∈ columns (frames st !!! l) →
  src2 ∈ add_column (columns (frames st !!! l)) c1 →
  (assign l c1 (λ s, v ← getitem s src1; mret (map f v));;
   assign l c2 (λ s, v ← getitem s src2; mret (map g v))) st =
  Ok (tt, mkStore (<[l := mkDF (add_column (add_column (columns (frames st !!! l)) c1) c2)
                              (map (λ r, <[c2 := g (cell (<[c1 := f (cell r src1)]> r) src2)]>
                                           (<[c1 := f (cell r src1)]> r))
                                   (rows (frames st !!! l)))]> (frames st))
                  (stdout st)).
Proof.
  intros Hsrc1 Hsrc2. unfold mbind at 1, Py_bind at 1. rewrite assign_run.
  unfold mbind at 1, Result_bind at 1. rewrite getitem_Ok by done.
  unfold mret at 1, Result_ret at 1. rewrite assign_run. cbn [frames stdout].
  rewrite lookup_total_insert_eq.
  unfold mbind at 1, Result_bind at 1. rewrite getitem_Ok by done.
  unfold mret at 1, Result_ret at 1. rewrite insert_insert_eq.
  f_equal. f_equal. f_equal. f_equal.
  unfold setitem. cbn [columns rows]. f_equal.
  by repeat (rewrite List.map_map || rewrite zip_with_map_r).
Qed.

Lemma score_rows l method valid_values threshold st st2 :
  method = "zscore" ∨ method = "iqr" →
  score l method valid_values threshold st = Ok (tt, st2) →
  ∃ sc flag, neutral_on_missing sc flag
    ∧ rows (frames st2 !!! l) = map (scored_row sc flag) (rows (frames st !!! l)).
Proof.
  intros Hm Hrun.
  assert (flat_scores l st = Ok (tt, st2) →
          ∃ sc flag, neutral_on_missing sc flag
            ∧ rows (frames st2 !!! l) = map (scored_row sc flag) (rows (frames st !!! l)))
    as Hflat.
  { rewrite flat_scores_run. intros [= <-]. exists (λ _, 0%float), (λ _, false).
    split; [by intros c _; split; [|right]|].
    cbn [frames]. rewrite lookup_total_insert_eq. unfold setitem_scalar. cbn [rows].
    by rewrite List.map_map. }
  destruct (decide ("value" ∈ columns (frames st !!! l))) as [Hv|Hv].
  2:{ destruct Hm as [-> | ->]; unfold score in Hrun; cbn [String.eqb Ascii.eqb Bool.eqb] in Hrun;
        [unfold zscore in Hrun|unfold iqr in Hrun]; cbv zeta in Hrun;
        (destruct (_ =? _)%float; [by apply Hflat|]);
        unfold mbind at 1, Py_bind at 1 in Hrun; rewrite assign_run in Hrun;
        unfold mbind at 1, Result_bind at 1 in Hrun;
        by rewrite getitem_KeyError in Hrun. }
  destruct Hm as [-> | ->]; unfold score in Hrun; cbn [String.eqb Ascii.eqb Bool.eqb] in Hrun.
  - unfold zscore in Hrun. cbv zeta in Hrun.
    destruct (_ =? _)%float; [by apply Hflat|].
    rewrite assign_twice_run in Hrun by auto using add_column_elem.
    injection Hrun as <-. cbn [frames]. rewrite lookup_total_insert_eq. cbn [rows].
    eexists (λ c, (num c - mean valid_values) / std valid_values)%float,
            (λ c, (threshold <? PrimFloat.abs ((num c - mean valid_values) / std valid_values))%float).
    split.
    + intros c Hc%isna_num. split; [|left; by apply is_nan_sub_div].
      by apply ltb_nan_r, is_nan_abs, is_nan_sub_div.
    + apply map_ext. intros r. unfold scored_row. by rewrite cell_insert.
  - unfold iqr in Hrun. cbv zeta in Hrun.
    destruct (_ =? _)%float; [by apply Hflat|].
    rewrite assign_twice_run in Hrun by auto using add_column_mono.
    injection Hrun as <-. cbn [frames]. rewrite lookup_total_insert_eq. cbn [rows].
    eexists (λ c, PrimFloat.abs ((num c - quantile valid_values 0.75)
                                 / (quantile valid_values 0.75 - quantile valid_values 0.25)))%float,
            (λ c, (num c <? quantile valid_values 0.25
                            - threshold * (quantile valid_values 0.75 - quantile valid_values 0.25))%float
                  || (quantile valid_values 0.75
                      + threshold * (quantile valid_values 0.75 - quantile valid_values 0.25)
                      <? num c)%float).
    split.
    + intros c Hc%isna_num. split; [|left; by apply is_nan_abs, is_nan_sub_div].
      by rewrite ltb_nan_l, ltb_nan_r.
    + apply map_ext. intros r. unfold scored_row. by rewrite cell_insert_ne.
Qed.

Lemma filter_singleton {A} (p : A → bool) (l : list A) (x : A) :
  length (List.filter p l) ≤ 1 → x ∈ l → p x = true → List.filter p l = [x].
Proof.
  intros Hlen Hx Hp.
  assert (x ∈ List.filter p l) as Hin by by apply elem_of_List_filter.
  destruct (List.filter p l) as [|a [|b rest]]; cbn in Hlen.
  - by apply elem_of_nil in Hin.
  - by apply list_elem_of_singleton in Hin as ->.
  - lia.
Qed.

(** A call of [detect_anomalies] with method [zscore] or [iqr] that
    returns, on a frame in which no two rows of the sensor have the same
    time, gives every row of the sensor without value [is_anomaly =
    False], [anomaly_score = 0.0] and the method as [detection_method].
    (With two such rows, as in [same_time_missing], it does not.) *)
Lemma detect_anomalies_missing_value_unique_keys (data : nat) (sensor_name method : string)
    (threshold : float) (st st' : Store) (d : DataFrame) (res : nat) :
  frames st !! data = Some d →
  method = "zscore" ∨ method = "iqr" →
  detect_anomalies data sensor_name method threshold st = Ok (res, st') →
  unique_keys (rows (sensor_rows sensor_name d)) →
  Forall (λ r, cell r "sensor" = CStr sensor_name → isna (cell r "value") = true →
               cell r "is_anomaly" = CBool false ∧ cell r "anomaly_score" = CNum 0
               ∧ cell r "detection_method" = CStr method)
         (rows (frames st' !!! res)).
Proof.
  intros Hd Hmethod Hrun Huniq. rewrite detect_anomalies_unfold in Hrun. cbv zeta in Hrun.
  rewrite (lookup_total_correct _ _ _ Hd) in Hrun.
  set (l1 := fresh (dom (frames st))) in *.
  assert (frames st !! l1 = None) as Hl1.
  { apply not_elem_of_dom. apply is_fresh. }
  destruct (decide ("sensor" ∈ columns d)) as [Hsensor|]; [|done].
  destruct (existsb _ _); [|done].
  destruct (bool_decide _); [|done].
  destruct (decide ("value" ∈ columns d)) as [Hvalue|]; [|done].
  destruct (_ <? _)%nat; [done|].
  destruct (empty _); [done|].
  destruct (score _ _ _ _ _) as [[[] st2]|err] eqn:Hscore; [|done].
  destruct (score_rows _ _ _ _ _ _ Hmethod Hscore) as (sc & flag & Hneutral & Hrows).
  apply score_writes_only in Hscore as [Hout Hfr]. cbn [frames stdout] in Hout, Hfr, Hrows.
  rewrite lookup_total_insert_eq in Hrows.
  rewrite merge_back_unfold in Hrun. cbn [frames stdout] in Hrun.
  rewrite lookup_total_insert_eq in Hrun.
  set (s := setitem_scalar _ _ _) in *.
  assert (<[l1 := s]> (frames st2) !! data = Some d) as Hdata.
  { assert (data ≠ l1) by congruence.
    rewrite lookup_insert_ne by done. rewrite Hfr by done. by rewrite lookup_insert_ne. }
  rewrite (lookup_total_correct _ _ _ Hdata) in Hrun.
  destruct (project _ _) as [scores|err] eqn:Hproj; [|done].
  apply project_inv in Hproj as [Hscores _].
  assert (columns scores = score_columns) as Hcols by by rewrite Hscores.
  destruct (merge_left _ _ _) as [m|err] eqn:Hmerge; [|done].
  destruct (decide ("is_anomaly" ∈ columns m)) as [H1|]; [|done].
  destruct (decide ("anomaly_score" ∈ columns m)) as [H2|]; [|done].
  destruct (decide ("detection_method" ∈ columns m)) as [H3|]; [|done].
  injection Hrun as <- <-. cbn [frames]. rewrite lookup_total_insert_eq.
  assert (∀ c, c ∈ anomaly_columns → c ∉ columns d) as Hnone.
  { intros c Hc. eapply merge_left_clash; [done..|].
    apply anomaly_columns_inv in Hc as [->|[->| ->]]; done. }
  assert (disjoint_columns merge_keys d scores) as Hdisj.
  { intros c Hc. rewrite Hcols.
    intros [->|[->|Ha]%elem_of_cons]%elem_of_cons; [by repeat constructor..|].
    by apply Hnone in Ha. }
  pose proof (merge_left_keys _ _ _ _ Hmerge) as Hk.
  rewrite merge_left_disjoint in Hmerge by done. injection Hmerge as <-.
  unfold filled. cbn [rows].
  (* The rows of [scores], one for each row of the sensor. *)
  set (img := λ r : Row,
         filter (λ kv : string * Cell, kv.1 ∈ score_columns)
           (<["detection_method" := CStr method]> (scored_row sc flag r))).
  assert (rows scores = map img (rows (sensor_rows sensor_name d))) as Himg.
  { rewrite Hscores. cbn [rows]. unfold s, setitem_scalar. cbn [rows].
    by rewrite Hrows, !List.map_map. }
  assert (∀ l r, row_eqb merge_keys l (img r) = row_eqb merge_keys l r) as Hkey.
  { intros l r. unfold row_eqb, merge_keys, img, scored_row. cbn [forallb].
    rewrite !cell_restrict by (by repeat constructor). by rewrite !cell_insert_ne. }
  apply Forall_map, Forall_forall. intros x (l & Hx & Hl)%list_elem_of_bind Hsx Hvx.
  rewrite fill_row_cell in Hsx, Hvx by (by intros [?|[?|?]]%anomaly_columns_inv).
  assert (cell l "sensor" = CStr sensor_name ∧ isna (cell l "value") = true) as [Hsl Hvl].
  { apply matches_elem in Hx as [[-> _]|(r & _ & _ & ->)];
      rewrite (merged_row_cell_left _ _ _ _ _ _ Hdisj Hsensor) in Hsx;
      by rewrite (merged_row_cell_left _ _ _ _ _ _ Hdisj Hvalue) in Hvx. }
  assert (l ∈ rows (sensor_rows sensor_name d)) as Hlsel.
  { apply elem_of_List_filter. split; [done|]. rewrite Hsl. apply String.eqb_refl. }
  assert (List.filter (λ r, row_eqb merge_keys l r) (rows scores) = [img l]) as Hfilter.
  { rewrite Himg, filter_map_comm.
    rewrite (List.filter_ext _ (λ r, row_eqb merge_keys l r)) by (intros r; apply Hkey).
    rewrite (filter_singleton _ _ l); [done|apply Huniq|done|].
    unfold row_eqb, merge_keys. cbn [forallb]. by rewrite !cell_eqb_refl. }
  unfold matches in Hx. rewrite Hfilter in Hx. cbn [map] in Hx.
  apply list_elem_of_singleton in Hx as ->.
  assert (∀ c, c ∈ anomaly_columns →
            cell (merged_row merge_keys d scores l (Some (img l))) c = cell (img l) c) as Hright.
  { intros c Hc.
    rewrite merged_row_cell_right; [done|done|by apply Hnone|by rewrite right_columns_scores]. }
  rewrite fill_row_is_anomaly, fill_row_anomaly_score, fill_row_detection_method.
  rewrite !Hright by (by repeat constructor). unfold img.
  rewrite !cell_restrict by (by repeat constructor). unfold scored_row.
  rewrite cell_insert, !(cell_insert_ne _ "detection_method") by done.
  rewrite cell_insert, cell_insert_ne, cell_insert by done.
  destruct (Hneutral _ Hvl) as [-> Hsc]. split; [done|]. split; [|done].
  unfold fill_cell. cbn [isna]. destruct Hsc as [-> | ->]; done.
Qed.

End detect.

(** ** [detect_anomalies]: outcomes and the rows of the result *)

(** *** The scoring statements as triples on [sensor_df] *)

Definition triple (l : nat) (Pre : DataFrame → Prop) (m : Py unit)
    (Post : DataFrame → Prop) : Prop :=
  ∀ st, Pre (frames st !!! l) → ∃ st', m st = Ok (tt, st') ∧ Post (frames st' !!! l).

Lemma triple_seq l (Pre Mid Post : DataFrame → Prop) (m1 m2 : Py unit) :
  triple l Pre m1 Mid → triple l Mid m2 Post → triple l Pre (m1 ;; m2) Post.
Proof.
  intros H1 H2 st Hpre. destruct (H1 st Hpre) as (st1 & Hrun1 & Hmid).
  destruct (H2 st1 Hmid) as (st2 & Hrun2 & Hpost).
  exists st2. split; [|done]. unfold mbind, Py_bind. by rewrite Hrun1.
Qed.

Lemma triple_assign l c e (Pre Post : DataFrame → Prop) :
  (∀ s, Pre s → ∃ vals, e s = Ok vals ∧ Post (setitem c vals s)) →
  triple l Pre (assign l c e) Post.
Proof.
  intros He st Hpre. destruct (He _ Hpre) as (vals & Hvals & Hpost).
  rewrite assign_run, Hvals. eexists. split; [done|].
  cbn [frames]. by rewrite lookup_total_insert_eq.
Qed.

Lemma triple_update l f (Pre Post : DataFrame → Prop) :
  (∀ s, Pre s → Post (f s)) → triple l Pre (update_frame l f) Post.
Proof.
  intros Hf st Hpre. eexists. split; [done|].
  cbn [frames]. rewrite lookup_total_insert_eq. by apply Hf.
Qed.

(** A series computed from one column of the frame. *)
Lemma series_Ok s src (g : list Cell → list Cell) :
  src ∈ columns s →
  (getitem s src ≫= λ v, mret (g v)) = Ok (g (map (λ r, cell r src) (rows s))).
Proof. intros. unfold mbind, Result_bind. by rewrite getitem_Ok. Qed.

Lemma setitem_rows_Forall c vals s (Q : Row → Prop) :
  (∀ r v, r ∈ rows s → v ∈ vals → Q (<[c := v]> r)) → Forall Q (rows (setitem c vals s)).
Proof.
  intros HQ. unfold setitem. cbn [rows]. apply Forall_forall.
  intros r' (r & v & -> & Hr & Hv)%elem_of_zip_with. by apply HQ.
Qed.

Definition number (c : Cell) : Prop := ∃ x, c = CNum x.

Definition boolean (c : Cell) : Prop := ∃ b, c = CBool b.

(** [sensor_df] before the scoring: it has [value] and the columns [K]
    that the caller wants kept. *)
Definition scorable (K : list string) (s : DataFrame) : Prop :=
  "value" ∈ columns s ∧ Forall (λ c, c ∈ columns s) K.

(** [sensor_df] with a score in every row. *)
Definition with_score (K : list string) (s : DataFrame) : Prop :=
  scorable K s ∧ "anomaly_score" ∈ columns s
  ∧ Forall (λ r, number (cell r "anomaly_score")) (rows s).

(** [sensor_df] after the scoring. *)
Definition scored (K : list string) (s : DataFrame) : Prop :=
  "is_anomaly" ∈ columns s ∧ "anomaly_score" ∈ columns s
  ∧ Forall (λ c, c ∈ columns s) K
  ∧ Forall (λ r, boolean (cell r "is_anomaly") ∧ number (cell r "anomaly_score")) (rows s).

Lemma scorable_setitem K c vals s : scorable K s → scorable K (setitem c vals s).
Proof.
  intros [Hv HK]. split; [by apply add_column_mono|].
  eapply Forall_impl; [exact HK|]. intros k Hk. by apply add_column_mono.
Qed.

Lemma scorable_setitem_scalar K c v s : scorable K s → scorable K (setitem_scalar c v s).
Proof.
  intros [Hv HK]. split; [by apply add_column_mono|].
  eapply Forall_impl; [exact HK|]. intros k Hk. by apply add_column_mono.
Qed.

Section detect_outcomes.
Context {P : Pandas}.

Lemma flat_scores_triple K l : triple l (scorable K) (flat_scores l) (scored K).
Proof.
  unfold flat_scores. eapply (triple_seq _ _ (with_score K)).
  - apply triple_update. intros s Hs. split; [by apply scorable_setitem_scalar|].
    split; [apply add_column_elem|].
    unfold setitem_scalar. cbn [rows]. apply Forall_map, Forall_forall. intros r _.
    rewrite cell_insert. by eexists.
  - apply triple_update. intros s ([Hv HK] & Ha & Hr). split; [apply add_column_elem|].
    split; [by apply add_column_mono|]. split.
    { eapply Forall_impl; [exact HK|]. intros k Hk. by apply add_column_mono. }
    unfold setitem_scalar. cbn [rows]. apply Forall_map.
    eapply Forall_impl; [exact Hr|]. intros r Hx.
    rewrite cell_insert, cell_insert_ne by done. split; [by eexists|done].
Qed.

(** The assignment of [anomaly_score], computed from [value]. *)
Lemma anomaly_score_triple K l (f : Cell → float) :
  triple l (scorable K)
    (assign l "anomaly_score" (λ s, v ← getitem s "value"; mret (map (λ c, CNum (f c)) v)))
    (with_score K).
Proof.
  apply triple_assign. intros s Hs. eexists. split; [apply series_Ok, Hs|].
  split; [by apply scorable_setitem|]. split; [apply add_column_elem|].
  apply setitem_rows_Forall. intros r v _ (c & -> & _)%list_elem_of_fmap.
  rewrite cell_insert. by eexists.
Qed.

(** The assignment of [is_anomaly], computed from the column [src]. *)
Lemma is_anomaly_triple K l src (f : Cell → bool) :
  triple l (λ s, with_score K s ∧ src ∈ columns s)
    (assign l "is_anomaly" (λ s, v ← getitem s src; mret (map (λ c, CBool (f c)) v)))
    (λ s, scored K s ∧ scorable K s).
Proof.
  apply triple_assign. intros s [(Hs & Ha & Hr) Hsrc]. eexists.
  split; [by apply series_Ok|].
  split; [|by apply scorable_setitem].
  split; [apply add_column_elem|].
  split; [by apply add_column_mono|]. split.
  { destruct Hs as [_ HK]. eapply Forall_impl; [exact HK|].
    intros k Hk. by apply add_column_mono. }
  apply setitem_rows_Forall. intros r v Hin (c & -> & _)%list_elem_of_fmap.
  rewrite cell_insert, cell_insert_ne by done. split; [by eexists|].
  by eapply Forall_forall in Hr.
Qed.

Lemma triple_weaken l (Pre Pre' Post Post' : DataFrame → Prop) m :
  (∀ s, Pre' s → Pre s) → (∀ s, Post s → Post' s) →
  triple l Pre m Post → triple l Pre' m Post'.
Proof.
  intros Hpre Hpost Hm st Hs. destruct (Hm st (Hpre _ Hs)) as (st' & Hrun & Hp).
  exists st'. split; [done|]. by apply Hpost.
Qed.

Lemma zscore_triple K l valid_values threshold :
  triple l (scorable K) (zscore l valid_values threshold) (scored K).
Proof.
  unfold zscore. cbv zeta. destruct (_ =? _)%float; [apply flat_scores_triple|].
  eapply triple_seq; [apply anomaly_score_triple|].
  eapply triple_weaken; [| |apply (is_anomaly_triple K l "anomaly_score")].
  - intros s Hs. split; [done|]. by destruct Hs as (_ & ? & _).
  - by intros s [? _].
Qed.

Lemma iqr_triple K l valid_values threshold :
  triple l (scorable K) (iqr l valid_values threshold) (scored K).
Proof.
  unfold iqr. cbv zeta. destruct (_ =? _)%float; [apply flat_scores_triple|].
  eapply triple_seq; [apply anomaly_score_triple|].
  eapply triple_weaken; [| |apply (is_anomaly_triple K l "value")].
  - intros s Hs. split; [done|]. by destruct Hs as ([? _] & _).
  - by intros s [? _].
Qed.

Lemma rolling_triple K l threshold :
  "rolling_mean" ∉ K → "rolling_std" ∉ K →
  triple l (scorable K) (rolling l threshold) (scored K).
Proof.
  intros Hm Hs. unfold rolling. cbv zeta.
  eapply (triple_seq _ _ (λ s, scorable K s ∧ "rolling_mean" ∈ columns s)).
  { apply triple_assign. intros s Hsc. eexists.
    split; [apply (series_Ok s "value" (λ v, map CNum (rolling_mean 10 2 (map num v)))), Hsc|].
    split; [by apply scorable_setitem|apply add_column_elem]. }
  eapply (triple_seq _ _ (λ s, scorable K s ∧ "rolling_mean" ∈ columns s
                               ∧ "rolling_std" ∈ columns s)).
  { apply triple_assign. intros s [Hsc Hrm]. eexists.
    split; [apply (series_Ok s "value" (λ v, map CNum (rolling_std 10 2 (map num v)))), Hsc|].
    split; [by apply scorable_setitem|].
    split; [by apply add_column_mono|apply add_column_elem]. }
  eapply (triple_seq _ _ (with_score K)).
  { apply triple_assign. intros s (Hsc & Hrm & Hrs). eexists. split.
    { unfold mbind, Result_bind. rewrite !getitem_Ok; [done..|apply Hsc]. }
    split; [by apply scorable_setitem|]. split; [apply add_column_elem|].
    apply setitem_rows_Forall. intros r v _ (c & md & -> & _)%elem_of_zip_with.
    rewrite cell_insert. by eexists. }
  eapply (triple_seq _ _ (scored K)).
  { eapply triple_weaken; [| |apply (is_anomaly_triple K l "anomaly_score")].
    - intros s Hsc. split; [done|]. by destruct Hsc as (_ & ? & _).
    - by intros s [? _]. }
  apply triple_update. intros s (Hi & Ha & HK & Hr).
  assert (∀ c, c ∈ columns s → c ≠ "rolling_mean" → c ≠ "rolling_std" →
               c ∈ columns (drop_columns ["rolling_mean"; "rolling_std"] s)) as Hkeep.
  { intros c Hc H1 H2. unfold drop_columns. cbn [columns].
    apply elem_of_List_filter. split; [done|]. apply negb_true_iff, bool_decide_eq_false.
    rewrite !elem_of_cons, elem_of_nil. tauto. }
  assert (∀ (r : Row) c, c ≠ "rolling_mean" → c ≠ "rolling_std" →
            cell (filter (λ kv : string * Cell, kv.1 ∉ ["rolling_mean"; "rolling_std"]) r) c
            = cell r c) as Hcell.
  { intros r c H1 H2. unfold cell.
    assert (c ∉ ["rolling_mean"; "rolling_std"]) as Hn.
    { rewrite !elem_of_cons, elem_of_nil. tauto. }
    destruct (r !! c) as [v|] eqn:E.
    - by rewrite (map_lookup_filter_Some_2 _ _ _ _ E).
    - rewrite map_lookup_filter_None_2; [done|by left]. }
  split; [by apply Hkeep|]. split; [by apply Hkeep|]. split.
  - apply Forall_forall. intros c Hc. eapply Forall_forall in HK as Hin; [|done].
    apply Hkeep; [done|by intros ->..].
  - unfold drop_columns. cbn [rows]. apply Forall_map.
    eapply Forall_impl; [exact Hr|]. intros r Hx. by rewrite !Hcell.
Qed.

(** With a supported method, the scoring of a frame that has the column
    [value] returns and leaves a boolean in [is_anomaly] and a float in
    [anomaly_score] of every row. *)
Lemma score_triple K l method valid_values threshold :
  method ∈ supported_methods → "rolling_mean" ∉ K → "rolling_std" ∉ K →
  triple l (scorable K) (score l method valid_values threshold) (scored K).
Proof.
  intros [->|[->|[->|[]%elem_of_nil]%elem_of_cons]%elem_of_cons]%elem_of_cons Hm Hs;
    unfold score; cbn [String.eqb Ascii.eqb Bool.eqb].
  - apply zscore_triple.
  - apply iqr_triple.
  - by apply rolling_triple.
Qed.

(** *** The merge, for a call that reaches it *)

(** The right frame of the merge: the five columns of [sensor_df] once
    [detection_method] is assigned. *)
Definition scores_of (method : string) (s : DataFrame) : DataFrame :=
  mkDF score_columns
    (map (λ r : Row, filter (λ kv : string * Cell, kv.1 ∈ score_columns)
                       (<["detection_method" := CStr method]> r))
         (rows s)).

Lemma scores_of_cell method s r' c :
  r' ∈ rows (scores_of method s) → c ∈ score_columns →
  ∃ r, r ∈ rows s ∧ cell r' c = cell (<["detection_method" := CStr method]> r) c.
Proof.
  unfold scores_of. cbn [rows]. intros (r & -> & Hr)%list_elem_of_fmap Hc.
  exists r. split; [done|]. by apply cell_restrict.
Qed.

Lemma scores_of_disjoint method s d :
  (∀ c, c ∈ anomaly_columns → c ∉ columns d) →
  disjoint_columns merge_keys d (scores_of method s).
Proof.
  intros Hnone c Hc. cbn [scores_of columns].
  intros [->|[->|Ha]%elem_of_cons]%elem_of_cons; [by repeat constructor..|].
  by apply Hnone in Ha.
Qed.

(** The frame [detect_anomalies] returns, from the frame [s] that
    [sensor_df] is after the scoring. *)
Definition result_of (method : string) (d s : DataFrame) : DataFrame :=
  mkDF (columns d ++ anomaly_columns)
       (map fill_row (rows d ≫= matches merge_keys d (scores_of method s))).

Lemma merge_back_scored data l method st d s :
  frames st !! data = Some d → data ≠ l →
  frames st !! l = Some (setitem_scalar "detection_method" (CStr method) s) →
  scored merge_keys s → (∀ c, c ∈ anomaly_columns → c ∉ columns d) →
  "timestamp" ∈ columns d → "sensor" ∈ columns d →
  merge_back data l st =
    Ok (fresh (dom (frames st)),
        mkStore (<[fresh (dom (frames st)) := result_of method d s]> (frames st)) (stdout st)).
Proof.
  intros Hd Hne Hl (Hi & Ha & HK & _) Hnone Hts Hsensor.
  rewrite merge_back_unfold.
  rewrite (lookup_total_correct _ _ _ Hd), (lookup_total_correct _ _ _ Hl).
  rewrite project_Ok.
  2:{ cbn [setitem_scalar columns]. apply Forall_cons in HK as [? [? _]%Forall_cons].
      repeat constructor; auto 10 using add_column_mono, add_column_elem. }
  assert (mkDF ("timestamp" :: "sensor" :: anomaly_columns)
            (map (λ r : Row, filter (λ kv : string * Cell,
                                       kv.1 ∈ "timestamp" :: "sensor" :: anomaly_columns) r)
                 (rows (setitem_scalar "detection_method" (CStr method) s)))
          = scores_of method s) as ->.
  { unfold scores_of, setitem_scalar. cbn [rows]. by rewrite List.map_map. }
  rewrite merge_left_disjoint; [| |by apply scores_of_disjoint].
  2:{ repeat constructor; try done; cbn; by repeat constructor. }
  cbn [columns]. rewrite right_columns_scores by done.
  rewrite !decide_True by (apply elem_of_app; right; by repeat constructor).
  reflexivity.
Qed.

(** *** A call that passes the checks on its arguments *)

Lemma sensor_rows_found sensor_name d :
  rows (sensor_rows sensor_name d) ≠ [] →
  existsb (λ r, str_eqb (cell r "sensor") sensor_name) (rows d) = true.
Proof.
  intros Hne. destruct (rows (sensor_rows sensor_name d)) as [|r0 rs] eqn:E; [done|].
  assert (r0 ∈ rows (sensor_rows sensor_name d)) as [Hr0 Hs0]%elem_of_List_filter
    by (rewrite E; by left).
  apply existsb_exists. exists r0. split; [by apply list_elem_of_In|done].
Qed.

Lemma valid_values_rows sensor_name d :
  length (valid_values sensor_name d) ≤ length (rows (sensor_rows sensor_name d)).
Proof.
  unfold valid_values, dropna_floats.
  etrans; [apply sublist_length, List_filter_sublist|]. rewrite length_map. lia.
Qed.

(** With the columns [sensor] and [value], a supported method and two
    values of the sensor, the call gets as far as the merge: the scoring
    returns, and leaves a frame [s] with the times and sensors of the
    rows of the sensor, in their order, and with scores. *)
Lemma detect_anomalies_validated data sensor_name method threshold st d :
  frames st !! data = Some d →
  "sensor" ∈ columns d → "value" ∈ columns d → method ∈ supported_methods →
  2 ≤ length (valid_values sensor_name d) →
  ∃ s st2,
    score (fresh (dom (frames st))) method (valid_values sensor_name d) threshold
      (mkStore (<[fresh (dom (frames st)) := sensor_rows sensor_name d]> (frames st))
               (stdout st)) = Ok (tt, st2)
    ∧ frames st2 !!! fresh (dom (frames st)) = s
    ∧ same_keys (sensor_rows sensor_name d) s
    ∧ (∀ K, "rolling_mean" ∉ K → "rolling_std" ∉ K →
            Forall (λ c, c ∈ columns d) K → scored K s)
    ∧ detect_anomalies data sensor_name method threshold st =
        merge_back data (fresh (dom (frames st)))
          (mkStore (<[fresh (dom (frames st)) :=
                        setitem_scalar "detection_method" (CStr method) s]> (frames st))
                   (stdout st)).
Proof.
  intros Hd Hsensor Hvalue Hmethod Hlen.
  rewrite detect_anomalies_unfold. cbv zeta.
  rewrite (lookup_total_correct _ _ _ Hd).
  set (l := fresh (dom (frames st))).
  set (sel := sensor_rows sensor_name d).
  assert (rows sel ≠ []) as Hne.
  { intros E. pose proof (valid_values_rows sensor_name d) as Hle. fold sel in Hle.
    rewrite E in Hle. cbn [length] in Hle. lia. }
  rewrite !decide_True by done.
  rewrite sensor_rows_found by done.
  rewrite bool_decide_true by done.
  assert ((length (valid_values sensor_name d) <? 2)%nat = false) as ->.
  { by apply Nat.ltb_ge. }
  assert (empty sel = false) as ->.
  { unfold empty. change (columns sel) with (columns d).
    destruct (columns d); [by apply elem_of_nil in Hsensor|]. by destruct (rows sel). }
  set (st1 := mkStore (<[l := sel]> (frames st)) (stdout st)).
  assert (frames st1 !!! l = sel) as Hsel.
  { unfold st1. cbn [frames]. by rewrite lookup_total_insert_eq. }
  assert (∀ K, "rolling_mean" ∉ K → "rolling_std" ∉ K → Forall (λ c, c ∈ columns d) K →
            ∃ st2, score l method (valid_values sensor_name d) threshold st1 = Ok (tt, st2)
                   ∧ scored K (frames st2 !!! l)) as Hscore.
  { intros K H1 H2 HK.
    apply (score_triple K l method (valid_values sensor_name d) threshold Hmethod H1 H2 st1).
    rewrite Hsel. by split. }
  destruct (Hscore [] (not_elem_of_nil _) (not_elem_of_nil _) (Forall_nil_2 _))
    as (st2 & Hrun & _).
  exists (frames st2 !!! l), st2. split; [done|]. split; [done|].
  split; [|split].
  - pose proof (score_keeps_keys _ _ _ _ _ _ _ Hrun) as Hkeys. by rewrite Hsel in Hkeys.
  - intros K H1 H2 HK. destruct (Hscore K H1 H2 HK) as (st2' & Hrun' & Hpost).
    rewrite Hrun in Hrun'. by injection Hrun' as <-.
  - rewrite Hrun. f_equal.
    apply score_writes_only in Hrun as [Hout Hfr]. cbn [frames stdout] in Hout, Hfr.
    rewrite Hout. f_equal. apply map_eq. intros i.
    destruct (decide (i = l)) as [->|Hi]; [by rewrite !lookup_insert_eq|].
    assert (l ≠ i) as Hi' by congruence.
    rewrite !lookup_insert_ne by done. rewrite Hfr by done.
    unfold st1. cbn [frames]. by rewrite lookup_insert_ne.
Qed.

Lemma fresh_frame (st : Store) data d :
  frames st !! data = Some d → data ≠ fresh (dom (frames st)).
Proof.
  intros Hd Heq. apply (is_fresh (dom (frames st))). rewrite <- Heq.
  by apply elem_of_dom.
Qed.

(** The frame a call returns, when it returns. *)
Lemma detect_anomalies_run data sensor_name method threshold st d :
  frames st !! data = Some d →
  "timestamp" ∈ columns d → "sensor" ∈ columns d → "value" ∈ columns d →
  (∀ c, c ∈ anomaly_columns → c ∉ columns d) →
  method ∈ supported_methods →
  2 ≤ length (valid_values sensor_name d) →
  ∃ s st2 res st',
    score (fresh (dom (frames st))) method (valid_values sensor_name d) threshold
      (mkStore (<[fresh (dom (frames st)) := sensor_rows sensor_name d]> (frames st))
               (stdout st)) = Ok (tt, st2)
    ∧ frames st2 !!! fresh (dom (frames st)) = s
    ∧ same_keys (sensor_rows sensor_name d) s
    ∧ scored merge_keys s
    ∧ detect_anomalies data sensor_name method threshold st = Ok (res, st')
    ∧ frames st' !! res = Some (result_of method d s).
Proof.
  intros Hd Hts Hsensor Hvalue Hnone Hmethod Hlen.
  destruct (detect_anomalies_validated data sensor_name method threshold st d)
    as (s & st2 & Hrun & Hs & Hkeys & Hscored & ->); [done..|].
  assert (scored merge_keys s) as Hsc.
  { apply Hscored; [by intros ?%list_elem_of_In; cbn in *; intuition discriminate..|].
    by repeat constructor. }
  exists s, st2. eexists _, _. split; [done|]. split; [done|]. split; [done|]. split; [done|].
  pose proof (fresh_frame st data d Hd) as Hne.
  rewrite (merge_back_scored data _ method _ d s); cbn [frames stdout]; try done.
  - split; [reflexivity|]. cbn [frames]. by rewrite lookup_insert_eq.
  - by rewrite lookup_insert_ne.
  - by rewrite lookup_insert_eq.
Qed.

Lemma detect_anomalies_Ok_inv data sensor_name method threshold st st' d res :
  frames st !! data = Some d →
  detect_anomalies data sensor_name method threshold st = Ok (res, st') →
  "timestamp" ∈ columns d ∧ "sensor" ∈ columns d ∧ "value" ∈ columns d
  ∧ (∀ c, c ∈ anomaly_columns → c ∉ columns d)
  ∧ method ∈ supported_methods
  ∧ 2 ≤ length (valid_values sensor_name d).
Proof.
  intros Hd Hrun.
  rewrite detect_anomalies_unfold in Hrun. cbv zeta in Hrun.
  rewrite (lookup_total_correct _ _ _ Hd) in Hrun.
  destruct (decide ("sensor" ∈ columns d)) as [Hsensor|]; [|done].
  destruct (existsb _ _); [|done].
  destruct (bool_decide _) eqn:Hmethod; [|done]. apply bool_decide_eq_true in Hmethod.
  destruct (decide ("value" ∈ columns d)) as [Hvalue|]; [|done].
  destruct (_ <? _)%nat eqn:Hlen; [done|]. apply Nat.ltb_ge in Hlen.
  destruct (empty _); [done|].
  destruct (score _ _ _ _ _) as [[[] st2]|err] eqn:Hscore; [|done].
  rewrite merge_back_unfold in Hrun. cbn [frames stdout] in Hrun.
  apply score_writes_only in Hscore as [_ Hfr]. cbn [frames] in Hfr.
  pose proof (fresh_frame st data d Hd) as Hne.
  rewrite lookup_total_insert_eq in Hrun.
  rewrite (lookup_total_insert_ne _ _ data) in Hrun by done.
  assert (frames st2 !!! data = d) as Hdata.
  { apply lookup_total_correct. rewrite Hfr by done. by rewrite lookup_insert_ne. }
  rewrite Hdata in Hrun.
  destruct (project _ _) as [scores|err] eqn:Hproj; [|done].
  apply project_inv in Hproj as [Hscores _].
  assert (columns scores = score_columns) as Hcols by by rewrite Hscores.
  destruct (merge_left _ _ _) as [m|err] eqn:Hmerge; [|done].
  destruct (decide ("is_anomaly" ∈ columns m)) as [H1|]; [|done].
  destruct (decide ("anomaly_score" ∈ columns m)) as [H2|]; [|done].
  destruct (decide ("detection_method" ∈ columns m)) as [H3|]; [|done].
  pose proof (merge_left_keys _ _ _ _ Hmerge) as [[Hts _] _]%Forall_cons.
  repeat (split; [done|]). split; [|done].
  intros c Hc. eapply merge_left_clash; [done..|].
  apply anomaly_columns_inv in Hc as [->|[->| ->]]; done.
Qed.

(** [detect_anomalies] returns exactly when the frame has the columns
    [timestamp], [sensor] and [value] and none of the three anomaly
    columns, the method is one of the three, and the sensor has two
    values that are not missing. *)
Theorem detect_anomalies_returns_iff (data : nat) (sensor_name method : string)
    (threshold : float) (st : Store) (d : DataFrame) :
  frames st !! data = Some d →
  (∃ res st', detect_anomalies data sensor_name method threshold st = Ok (res, st'))
  ↔ "timestamp" ∈ columns d ∧ "sensor" ∈ columns d ∧ "value" ∈ columns d
    ∧ (∀ c, c ∈ anomaly_columns → c ∉ columns d)
    ∧ method ∈ supported_methods
    ∧ 2 ≤ length (valid_values sensor_name d).
Proof.
  intros Hd. split.
  - intros (res & st' & Hrun). by eapply detect_anomalies_Ok_inv.
  - intros (Hts & Hsensor & Hvalue & Hnone & Hmethod & Hlen).
    destruct (detect_anomalies_run data sensor_name method threshold st d)
      as (s & st2 & res & st' & _ & _ & _ & _ & Hrun & _); [done..|].
    by exists res, st'.
Qed.

Lemma project_Raise cols df e :
  project cols df = Raise e → ∃ c, e = KeyError c ∧ c ∈ cols.
Proof.
  unfold project. destruct (List.filter _ cols) as [|c l] eqn:Hf; [done|].
  intros [= <-]. exists c. split; [done|].
  assert (c ∈ List.filter (λ c, negb (bool_decide (c ∈ columns df))) cols) as Hin
    by (rewrite Hf; by left).
  by apply elem_of_List_filter in Hin as [? _].
Qed.

Lemma merge_left_Raise keys left right e :
  merge_left keys left right = Raise e → e = MergeError ∨ ∃ k, e = KeyError k ∧ k ∈ keys.
Proof.
  unfold merge_left. destruct (List.filter _ keys) as [|k l] eqn:Hf.
  - destruct (existsb _ _); [|done]. intros [= <-]. by left.
  - intros [= <-]. right. exists k. split; [done|].
    assert (k ∈ List.filter (λ k, negb (bool_decide (k ∈ columns left)
                                        && bool_decide (k ∈ columns right))) keys) as Hin
      by (rewrite Hf; by left).
    by apply elem_of_List_filter in Hin as [? _].
Qed.

Lemma merge_back_Raise data l st e :
  merge_back data l st = Raise e → e = MergeError ∨ ∃ k, e = KeyError k ∧ k ∈ score_columns.
Proof.
  rewrite merge_back_unfold.
  destruct (project _ _) as [scores|err] eqn:Hproj.
  2:{ intros [= <-]. right. by apply project_Raise in Hproj. }
  destruct (merge_left _ _ _) as [m|err] eqn:Hmerge.
  2:{ intros [= <-]. apply merge_left_Raise in Hmerge as [?|(k & -> & Hk)]; [by left|].
      right. exists k. split; [done|].
      apply elem_of_cons in Hk as [->|[->|[]%elem_of_nil]%elem_of_cons];
        by repeat constructor. }
  repeat case_decide; [done|..]; intros [= <-]; right; eexists; (split; [done|]);
    by repeat constructor.
Qed.

(** The exceptions of [detect_anomalies].  A [ValueError] is raised for
    three reasons only, a sensor that the frame does not have, a method
    that is not supported and a sensor with fewer than two values: the
    statement that raises [No data available] is never reached.  Every
    other exception is the [KeyError] of a column that is missing, or
    comes from the merge on a frame that lacks [timestamp] or has
    anomaly columns already. *)
Theorem detect_anomalies_exceptions (data : nat) (sensor_name method : string)
    (threshold : float) (st : Store) (d : DataFrame) (e : PyErr) :
  frames st !! data = Some d →
  detect_anomalies data sensor_name method threshold st = Raise e →
  (e = KeyError "sensor" ∧ "sensor" ∉ columns d)
  ∨ (e = ValueError ("Sensor '" +:+ sensor_name +:+ "' not found in the data")
     ∧ "sensor" ∈ columns d
     ∧ Forall (λ r, cell r "sensor" ≠ CStr sensor_name) (rows d))
  ∨ (e = ValueError ("Method '" +:+ method +:+ "' not supported. Choose from "
                     +:+ "['zscore', 'iqr', 'rolling']")
     ∧ method ∉ supported_methods)
  ∨ (e = KeyError "value" ∧ "value" ∉ columns d)
  ∨ (e = ValueError ("Insufficient data for anomaly detection for sensor '"
                     +:+ sensor_name +:+ "'")
     ∧ length (valid_values sensor_name d) < 2)
  ∨ ((e = MergeError ∨ ∃ k, e = KeyError k ∧ k ∈ score_columns)
     ∧ ("timestamp" ∉ columns d ∨ ∃ c, c ∈ anomaly_columns ∧ c ∈ columns d)).
Proof.
  intros Hd Hrun.
  destruct (decide ("sensor" ∈ columns d)) as [Hsensor|Hsensor].
  2:{ left. rewrite detect_anomalies_unfold in Hrun. cbv zeta in Hrun.
      rewrite (lookup_total_correct _ _ _ Hd), decide_False in Hrun by done.
      by injection Hrun as <-. }
  destruct (existsb (λ r, str_eqb (cell r "sensor") sensor_name) (rows d)) eqn:Hfound.
  2:{ right; left. rewrite detect_anomalies_unfold in Hrun. cbv zeta in Hrun.
      rewrite (lookup_total_correct _ _ _ Hd), decide_True, Hfound in Hrun by done.
      injection Hrun as <-. split; [done|]. split; [done|].
      apply existsb_false_Forall in Hfound. eapply Forall_impl; [exact Hfound|].
      intros r Hr Heq. cbn beta in Hr. rewrite Heq in Hr. cbn in Hr.
      by rewrite String.eqb_refl in Hr. }
  destruct (decide (method ∈ supported_methods)) as [Hmethod|Hmethod].
  2:{ do 2 right; left. rewrite detect_anomalies_unfold in Hrun. cbv zeta in Hrun.
      rewrite (lookup_total_correct _ _ _ Hd), decide_True, Hfound, bool_decide_false
        in Hrun by done.
      by injection Hrun as <-. }
  destruct (decide ("value" ∈ columns d)) as [Hvalue|Hvalue].
  2:{ do 3 right; left. rewrite detect_anomalies_unfold in Hrun. cbv zeta in Hrun.
      rewrite (lookup_total_correct _ _ _ Hd), decide_True, Hfound, bool_decide_true,
        decide_False in Hrun by done.
      by injection Hrun as <-. }
  destruct (length (valid_values sensor_name d) <? 2)%nat eqn:Hlen.
  { do 4 right; left. rewrite detect_anomalies_unfold in Hrun. cbv zeta in Hrun.
    rewrite (lookup_total_correct _ _ _ Hd), decide_True, Hfound, bool_decide_true,
      decide_True, Hlen in Hrun by done.
    injection Hrun as <-. split; [done|]. by apply Nat.ltb_lt. }
  apply Nat.ltb_ge in Hlen. do 5 right. split.
  - destruct (detect_anomalies_validated data sensor_name method threshold st d)
      as (s & st2 & _ & _ & _ & _ & Heq); [done..|].
    rewrite Heq in Hrun. by apply merge_back_Raise in Hrun.
  - destruct (decide ("timestamp" ∈ columns d)) as [Hts|]; [|by left]. right.
    destruct (decide ("is_anomaly" ∈ columns d)); [eexists; split; [|done]; by repeat constructor|].
    destruct (decide ("anomaly_score" ∈ columns d));
      [eexists; split; [|done]; by repeat constructor|].
    destruct (decide ("detection_method" ∈ columns d));
      [eexists; split; [|done]; by repeat constructor|].
    exfalso.
    destruct (detect_anomalies_run data sensor_name method threshold st d)
      as (s & st2 & res & st' & _ & _ & _ & _ & Hok & _); [done..| |done|done|congruence].
    by intros c [->|[->| ->]]%anomaly_columns_inv.
Qed.

(** *** The rows of the result *)

Lemma length_bind_ge {A B} (f : A → list B) (l : list A) :
  (∀ a, ∃ b, b ∈ f a) → length l ≤ length (l ≫= f).
Proof.
  intros Hf. induction l as [|a l IH]; [done|]. cbn. rewrite length_app.
  destruct (Hf a) as [b Hb]. destruct (f a); [by apply elem_of_nil in Hb|]. cbn. lia.
Qed.

Lemma scores_of_row_eqb method l (r : Row) :
  row_eqb merge_keys l
    (filter (λ kv : string * Cell, kv.1 ∈ score_columns)
       (<["detection_method" := CStr method]> r))
  = row_eqb merge_keys l r.
Proof.
  unfold row_eqb, merge_keys. cbn [forallb].
  rewrite !cell_restrict by (by repeat constructor). by rewrite !cell_insert_ne.
Qed.

(** Every row of the result is a row [l] of the input, with the cells
    of [l] in the columns of the input, and either no scored row has its
    time and sensor and it holds the three defaults, or it holds the
    filled scores of a scored row [r] with its time and sensor. *)
Lemma result_of_row method d s x :
  (∀ c, c ∈ anomaly_columns → c ∉ columns d) →
  x ∈ rows (result_of method d s) →
  ∃ l, l ∈ rows d ∧ (∀ c, c ∈ columns d → cell x c = cell l c)
    ∧ ((Forall (λ r, row_eqb merge_keys l r = false) (rows s)
        ∧ cell x "is_anomaly" = CBool false ∧ cell x "anomaly_score" = CNum 0
        ∧ cell x "detection_method" = CStr "none")
       ∨ ∃ r, r ∈ rows s ∧ row_eqb merge_keys l r = true
              ∧ cell x "is_anomaly" = fill_cell (CBool false) (cell r "is_anomaly")
              ∧ cell x "anomaly_score" = fill_cell (CNum 0) (cell r "anomaly_score")
              ∧ cell x "detection_method" = CStr method).
Proof.
  intros Hnone. unfold result_of. cbn [rows].
  intros (x0 & -> & (l & Hx0 & Hl)%list_elem_of_bind)%list_elem_of_fmap.
  pose proof (scores_of_disjoint method s d Hnone) as Hdisj.
  exists l. split; [done|]. split.
  { intros c Hc. rewrite fill_row_cell by (intros Ha; by apply Hnone in Ha).
    apply matches_elem in Hx0 as [[-> _]|(r & _ & _ & ->)]; by apply merged_row_cell_left. }
  assert (∀ ro c, c ∈ anomaly_columns →
            cell (merged_row merge_keys d (scores_of method s) l ro) c
            = from_option (λ r, cell r c) CNull ro) as Hright.
  { intros ro c Hc.
    rewrite merged_row_cell_right; [done|done|by apply Hnone|by rewrite right_columns_scores]. }
  rewrite fill_row_is_anomaly, fill_row_anomaly_score, fill_row_detection_method.
  apply matches_elem in Hx0 as [[-> Hnil]|(r' & Hr' & Heq & ->)].
  - left. rewrite !Hright by (by repeat constructor). split; [|done].
    apply Forall_forall. intros r Hr. apply not_true_is_false. intros Hm.
    assert (filter (λ kv : string * Cell, kv.1 ∈ score_columns)
              (<["detection_method" := CStr method]> r)
            ∈ List.filter (λ r, row_eqb merge_keys l r) (rows (scores_of method s))) as Hin.
    { apply elem_of_List_filter. split; [|by rewrite scores_of_row_eqb].
      unfold scores_of. cbn [rows]. apply list_elem_of_fmap. by exists r. }
    rewrite Hnil in Hin. by apply elem_of_nil in Hin.
  - right. unfold scores_of in Hr'. cbn [rows] in Hr'.
    apply list_elem_of_fmap in Hr' as (r & -> & Hr). rewrite scores_of_row_eqb in Heq.
    exists r. split; [done|]. split; [done|].
    rewrite !Hright by (by repeat constructor). cbn [from_option].
    rewrite !cell_restrict by (by repeat constructor).
    rewrite !(cell_insert_ne _ "detection_method") by done. by rewrite cell_insert.
Qed.

(** The frame a returning call has computed. *)
Lemma detect_anomalies_returned data sensor_name method threshold st st' d res :
  frames st !! data = Some d →
  detect_anomalies data sensor_name method threshold st = Ok (res, st') →
  ∃ s st2,
    score (fresh (dom (frames st))) method (valid_values sensor_name d) threshold
      (mkStore (<[fresh (dom (frames st)) := sensor_rows sensor_name d]> (frames st))
               (stdout st)) = Ok (tt, st2)
    ∧ frames st2 !!! fresh (dom (frames st)) = s
    ∧ same_keys (sensor_rows sensor_name d) s
    ∧ scored merge_keys s
    ∧ "timestamp" ∈ columns d ∧ "sensor" ∈ columns d ∧ "value" ∈ columns d
    ∧ (∀ c, c ∈ anomaly_columns → c ∉ columns d)
    ∧ frames st' !!! res = result_of method d s.
Proof.
  intros Hd Hrun.
  destruct (detect_anomalies_Ok_inv _ _ _ _ _ _ _ _ Hd Hrun)
    as (Hts & Hsensor & Hvalue & Hnone & Hmethod & Hlen).
  destruct (detect_anomalies_run data sensor_name method threshold st d)
    as (s & st2 & res' & st'' & Hscore & Hs & Hkeys & Hsc & Hok & Hres); [done..|].
  rewrite Hrun in Hok. injection Hok as <- <-.
  exists s, st2. repeat (split; [done|]). by apply lookup_total_correct.
Qed.

Lemma same_keys_elem s s' r :
  same_keys s s' → r ∈ rows s' → ∃ r0, r0 ∈ rows s ∧ key r0 = key r.
Proof.
  unfold same_keys. intros Hk Hr.
  assert (key r ∈ map key (rows s)) as (r0 & ? & ?)%list_elem_of_fmap.
  { rewrite <- Hk. apply list_elem_of_fmap. by exists r. }
  by exists r0.
Qed.

Lemma same_keys_elem_inv s s' r0 :
  same_keys s s' → r0 ∈ rows s → ∃ r, r ∈ rows s' ∧ key r = key r0.
Proof.
  unfold same_keys. intros Hk Hr.
  assert (key r0 ∈ map key (rows s')) as (r & ? & ?)%list_elem_of_fmap.
  { rewrite Hk. apply list_elem_of_fmap. by exists r0. }
  by exists r.
Qed.

Lemma str_eqb_true c s : str_eqb c s = true ↔ c = CStr s.
Proof.
  destruct c as [| |s'| |]; cbn; try (by split).
  rewrite String.eqb_eq. split; [by intros ->|by intros [= ->]].
Qed.

Lemma cell_eqb_str c s : cell_eqb c (CStr s) = true → c = CStr s.
Proof.
  destruct c as [| |s'|x|]; cbn; rewrite ?andb_false_r; try done.
  by intros ->%String.eqb_eq.
Qed.

Lemma row_eqb_key l r :
  row_eqb merge_keys l r = true
  ↔ cell_eqb (cell l "timestamp") (cell r "timestamp") = true
    ∧ cell_eqb (cell l "sensor") (cell r "sensor") = true.
Proof.
  unfold row_eqb, merge_keys. cbn [forallb]. rewrite andb_true_r. apply andb_true_iff.
Qed.

Lemma row_eqb_same_key l r r' :
  key r = key r' → row_eqb merge_keys l r = row_eqb merge_keys l r'.
Proof.
  unfold key. intros [= Ht Hs]. unfold row_eqb, merge_keys. cbn [forallb].
  by rewrite Ht, Hs.
Qed.

(** In the result the rows of the other sensors, and the rows without
    sensor, hold the defaults: not an anomaly, score [0.0], method
    [none]. *)
Theorem detect_anomalies_other_sensors (data : nat) (sensor_name method : string)
    (threshold : float) (st st' : Store) (d : DataFrame) (res : nat) :
  frames st !! data = Some d →
  detect_anomalies data sensor_name method threshold st = Ok (res, st') →
  Forall (λ x, cell x "sensor" ≠ CStr sensor_name →
               cell x "is_anomaly" = CBool false ∧ cell x "anomaly_score" = CNum 0
               ∧ cell x "detection_method" = CStr "none")
         (rows (frames st' !!! res)).
Proof.
  intros Hd Hrun.
  destruct (detect_anomalies_returned _ _ _ _ _ _ _ _ Hd Hrun)
    as (s & st2 & _ & _ & Hkeys & _ & _ & Hsensor & _ & Hnone & ->).
  apply Forall_forall. intros x Hx Hother.
  destruct (result_of_row _ _ _ _ Hnone Hx) as (l & Hl & Hcells & [(_ & ?)|Hmatch]); [done|].
  exfalso. destruct Hmatch as (r & Hr & [_ Heq]%row_eqb_key & _).
  destruct (same_keys_elem _ _ _ Hkeys Hr) as (r0 & Hr0 & Hk).
  apply elem_of_List_filter in Hr0 as [_ Hs0%str_eqb_true].
  injection Hk as _ Hk. rewrite <- Hk, Hs0 in Heq. apply cell_eqb_str in Heq.
  apply Hother. by rewrite Hcells.
Qed.

(** In the result every row of the analysed sensor holds the method in
    [detection_method], a boolean in [is_anomaly] and a float that is
    not [NaN] in [anomaly_score], whatever the method. *)
Theorem detect_anomalies_sensor_rows (data : nat) (sensor_name method : string)
    (threshold : float) (st st' : Store) (d : DataFrame) (res : nat) :
  frames st !! data = Some d →
  detect_anomalies data sensor_name method threshold st = Ok (res, st') →
  Forall (λ x, cell x "sensor" = CStr sensor_name →
               (∃ b, cell x "is_anomaly" = CBool b)
               ∧ (∃ y, cell x "anomaly_score" = CNum y ∧ is_nan y = false)
               ∧ cell x "detection_method" = CStr method)
         (rows (frames st' !!! res)).
Proof.
  intros Hd Hrun.
  destruct (detect_anomalies_returned _ _ _ _ _ _ _ _ Hd Hrun)
    as (s & st2 & _ & _ & Hkeys & (_ & _ & _ & Htyped) & _ & Hsensor & _ & Hnone & ->).
  apply Forall_forall. intros x Hx Hsx.
  destruct (result_of_row _ _ _ _ Hnone Hx) as (l & Hl & Hcells & [(Hno & _)|Hmatch]).
  - exfalso. rewrite Hcells in Hsx by done.
    assert (l ∈ rows (sensor_rows sensor_name d)) as Hlsel.
    { apply elem_of_List_filter. split; [done|]. by apply str_eqb_true. }
    destruct (same_keys_elem_inv _ _ _ Hkeys Hlsel) as (r & Hr & Hk).
    eapply Forall_forall in Hno; [|exact Hr].
    rewrite (row_eqb_same_key l r l Hk) in Hno.
    assert (row_eqb merge_keys l l = true) as Hrefl.
    { apply row_eqb_key. by rewrite !cell_eqb_refl. }
    congruence.
  - destruct Hmatch as (r & Hr & _ & -> & -> & ->).
    eapply Forall_forall in Htyped as [[b ->] [y ->]]; [|exact Hr].
    split; [by exists b|]. split; [|done].
    unfold fill_cell. cbn [isna]. destruct (is_nan y) eqn:Hy; eexists; by split.
Qed.

(** A call that returns drops no row: the result has at least as many
    rows as the input. *)
Theorem detect_anomalies_row_count_ge (data : nat) (sensor_name method : string)
    (threshold : float) (st st' : Store) (d : DataFrame) (res : nat) :
  frames st !! data = Some d →
  detect_anomalies data sensor_name method threshold st = Ok (res, st') →
  length (rows d) ≤ length (rows (frames st' !!! res)).
Proof.
  intros Hd Hrun.
  destruct (detect_anomalies_returned _ _ _ _ _ _ _ _ Hd Hrun)
    as (s & st2 & _ & _ & _ & _ & _ & _ & _ & _ & ->).
  unfold result_of. cbn [rows]. rewrite length_map.
  apply length_bind_ge. intros l. apply matches_nonempty.
Qed.

(** *** The scores of the methods [zscore] and [iqr] *)

(** The score and the flag that the statements of a method give a row,
    from the cell of its value. *)
Definition row_score (method : string) (valid_values : list float) (threshold : float)
    (c : Cell) : float * bool :=
  if String.eqb method "zscore" then
    let mean_ := mean valid_values in
    let std_ := std valid_values in
    if (std_ =? 0)%float then (0%float, false)
    else
      let z := ((num c - mean_) / std_)%float in
      (z, (threshold <? PrimFloat.abs z)%float)
  else
    let Q1 := quantile valid_values 0.25 in
    let Q3 := quantile valid_values 0.75 in
    let IQR := (Q3 - Q1)%float in
    if (IQR =? 0)%float then (0%float, false)
    else
      (PrimFloat.abs ((num c - Q3) / IQR),
       (num c <? Q1 - threshold * IQR)%float || (Q3 + threshold * IQR <? num c)%float).

Lemma score_row_score l method valid_values threshold st st2 :
  method = "zscore" ∨ method = "iqr" →
  score l method valid_values threshold st = Ok (tt, st2) →
  rows (frames st2 !!! l)
  = map (scored_row (λ c, (row_score method valid_values threshold c).1)
                    (λ c, (row_score method valid_values threshold c).2))
        (rows (frames st !!! l)).
Proof.
  intros Hm Hrun.
  assert (flat_scores l st = Ok (tt, st2) →
          rows (frames st2 !!! l)
          = map (scored_row (λ _, 0%float) (λ _, false)) (rows (frames st !!! l))) as Hflat.
  { rewrite flat_scores_run. intros [= <-].
    cbn [frames]. rewrite lookup_total_insert_eq. unfold setitem_scalar. cbn [rows].
    by rewrite List.map_map. }
  destruct (decide ("value" ∈ columns (frames st !!! l))) as [Hv|Hv].
  2:{ destruct Hm as [-> | ->]; unfold score in Hrun;
        cbn [String.eqb Ascii.eqb Bool.eqb] in Hrun;
        [unfold zscore in Hrun|unfold iqr in Hrun]; cbv zeta in Hrun;
        unfold row_score; cbn [String.eqb Ascii.eqb Bool.eqb]; cbv zeta;
        (destruct (_ =? _)%float; [by apply Hflat|]);
        unfold mbind at 1, Py_bind at 1 in Hrun; rewrite assign_run in Hrun;
        unfold mbind at 1, Result_bind at 1 in Hrun;
        by rewrite getitem_KeyError in Hrun. }
  destruct Hm as [-> | ->]; unfold score in Hrun; cbn [String.eqb Ascii.eqb Bool.eqb] in Hrun;
    unfold row_score; cbn [String.eqb Ascii.eqb Bool.eqb]; cbv zeta.
  - unfold zscore in Hrun. cbv zeta in Hrun.
    destruct (_ =? _)%float; [by apply Hflat|].
    rewrite assign_twice_run in Hrun by auto using add_column_elem.
    injection Hrun as <-. cbn [frames]. rewrite lookup_total_insert_eq. cbn [rows].
    apply map_ext. intros r. unfold scored_row. cbn [fst snd]. by rewrite cell_insert.
  - unfold iqr in Hrun. cbv zeta in Hrun.
    destruct (_ =? _)%float; [by apply Hflat|].
    rewrite assign_twice_run in Hrun by auto using add_column_mono.
    injection Hrun as <-. cbn [frames]. rewrite lookup_total_insert_eq. cbn [rows].
    apply map_ext. intros r. unfold scored_row. cbn [fst snd]. by rewrite cell_insert_ne.
Qed.

Lemma scored_row_key sc flag r : key (scored_row sc flag r) = key r.
Proof. unfold scored_row. by rewrite !key_insert. Qed.

(** With the method [zscore] or [iqr], a row of the analysed sensor in
    the result holds the flag and the score of a row of that sensor with
    its time in the input, [NaN] scores being replaced by [0.0]; when no
    two rows of the sensor have the same time, that row has its value. *)
Lemma detect_anomalies_scores_at_time (data : nat) (sensor_name method : string)
    (threshold : float) (st st' : Store) (d : DataFrame) (res : nat) :
  frames st !! data = Some d →
  method = "zscore" ∨ method = "iqr" →
  detect_anomalies data sensor_name method threshold st = Ok (res, st') →
  Forall (λ x, cell x "sensor" = CStr sensor_name →
      ∃ r, r ∈ rows (sensor_rows sensor_name d)
        ∧ cell_eqb (cell x "timestamp") (cell r "timestamp") = true
        ∧ (unique_keys (rows (sensor_rows sensor_name d)) → cell r "value" = cell x "value")
        ∧ let sc := row_score method (valid_values sensor_name d) threshold
                      (cell r "value") in
          cell x "is_anomaly" = CBool sc.2
          ∧ cell x "anomaly_score" = CNum (if is_nan sc.1 then 0 else sc.1))
         (rows (frames st' !!! res)).
Proof.
  intros Hd Hmethod Hrun.
  destruct (detect_anomalies_returned _ _ _ _ _ _ _ _ Hd Hrun)
    as (s & st2 & Hscore & Hs & Hkeys & _ & Hts & Hsensor & Hvalue & Hnone & ->).
  pose proof (score_row_score _ _ _ _ _ _ Hmethod Hscore) as Hrows.
  cbn [frames] in Hrows. rewrite lookup_total_insert_eq, Hs in Hrows.
  apply Forall_forall. intros x Hx Hsx.
  destruct (result_of_row _ _ _ _ Hnone Hx) as (l & Hl & Hcells & [(Hno & _)|Hmatch]).
  - exfalso. rewrite Hcells in Hsx by done.
    assert (l ∈ rows (sensor_rows sensor_name d)) as Hlsel.
    { apply elem_of_List_filter. split; [done|]. by apply str_eqb_true. }
    destruct (same_keys_elem_inv _ _ _ Hkeys Hlsel) as (r & Hr & Hk).
    eapply Forall_forall in Hno; [|exact Hr].
    rewrite (row_eqb_same_key l r l Hk) in Hno.
    assert (row_eqb merge_keys l l = true) as Hrefl.
    { apply row_eqb_key. by rewrite !cell_eqb_refl. }
    congruence.
  - destruct Hmatch as (r & Hr & Heq & -> & -> & _).
    rewrite Hrows in Hr. apply list_elem_of_fmap in Hr as (r0 & -> & Hr0).
    rewrite (row_eqb_same_key l _ r0 (scored_row_key _ _ r0)) in Heq.
    exists r0. split; [done|]. split; [|split].
    + apply row_eqb_key in Heq as [Ht _]. by rewrite Hcells.
    + intros Huniq.
      assert (l ∈ rows (sensor_rows sensor_name d)) as Hlsel.
      { apply elem_of_List_filter. split; [done|]. apply str_eqb_true.
        by rewrite <- Hcells. }
      assert (List.filter (λ r', row_eqb merge_keys l r') (rows (sensor_rows sensor_name d))
              = [l]) as Hone.
      { apply filter_singleton; [apply Huniq|done|].
        apply row_eqb_key. by rewrite !cell_eqb_refl. }
      assert (r0 ∈ [l]) as ->%list_elem_of_singleton.
      { rewrite <- Hone. by apply elem_of_List_filter. }
      by rewrite Hcells.
    + cbv zeta. unfold scored_row.
      rewrite cell_insert, cell_insert_ne, cell_insert by done.
      split; [done|]. unfold fill_cell. cbn [isna]. by destruct (is_nan _).
Qed.

(** With the method [zscore] or [iqr], on a frame in which no two rows
    of the sensor have the same time, every row of the sensor in the
    result holds the flag and the score that the method gives its own
    value, a [NaN] score, that of a missing value, being replaced by
    [0.0]. *)
Theorem detect_anomalies_scores_unique_keys (data : nat) (sensor_name method : string)
    (threshold : float) (st st' : Store) (d : DataFrame) (res : nat) :
  frames st !! data = Some d →
  method = "zscore" ∨ method = "iqr" →
  detect_anomalies data sensor_name method threshold st = Ok (res, st') →
  unique_keys (rows (sensor_rows sensor_name d)) →
  Forall (λ x, cell x "sensor" = CStr sensor_name →
      let sc := row_score method (valid_values sensor_name d) threshold (cell x "value") in
      cell x "is_anomaly" = CBool sc.2
      ∧ cell x "anomaly_score" = CNum (if is_nan sc.1 then 0 else sc.1))
         (rows (frames st' !!! res)).
Proof.
  intros Hd Hmethod Hrun Huniq.
  eapply Forall_impl; [by apply (detect_anomalies_scores_at_time data sensor_name method
                                   threshold st st' d res)|].
  intros x Hx Hsx. destruct (Hx Hsx) as (r & _ & _ & Hv & Hsc).
  by rewrite <- (Hv Huniq).
Qed.

(** With the method [iqr], when the two quartiles of the values of the
    sensor are equal, every row of the sensor in the result has the
    score [0.0] and is not flagged. *)
Theorem detect_anomalies_zero_iqr (data : nat) (sensor_name : string)
    (threshold : float) (st st' : Store) (d : DataFrame) (res : nat) :
  frames st !! data = Some d →
  detect_anomalies data sensor_name "iqr" threshold st = Ok (res, st') →
  (quantile (valid_values sensor_name d) 0.75 - quantile (valid_values sensor_name d) 0.25
   =? 0)%float = true →
  Forall (λ x, cell x "sensor" = CStr sensor_name →
               cell x "anomaly_score" = CNum 0 ∧ cell x "is_anomaly" = CBool false)
         (rows (frames st' !!! res)).
Proof.
  intros Hd Hrun Hiqr.
  eapply Forall_impl; [apply (detect_anomalies_scores_at_time data sensor_name "iqr"
                                threshold st st' d res); [done|by right|done]|].
  intros x Hx Hsx. destruct (Hx Hsx) as (r & _ & _ & _ & Hsc).
  unfold row_score in Hsc. cbn [String.eqb Ascii.eqb Bool.eqb] in Hsc. cbv zeta in Hsc.
  rewrite Hiqr in Hsc. cbn [fst snd] in Hsc. destruct Hsc as [-> ->]. done.
Qed.

(** *** The z-score of a sensor without spread *)

(** Every row of the input is carried into the result. *)
Lemma result_of_carries method d s l :
  (∀ c, c ∈ anomaly_columns → c ∉ columns d) → l ∈ rows d →
  ∃ x, x ∈ rows (result_of method d s) ∧ ∀ c, c ∈ columns d → cell x c = cell l c.
Proof.
  intros Hnone Hl.
  destruct (matches_nonempty merge_keys d (scores_of method s) l) as [x0 Hx0].
  pose proof (scores_of_disjoint method s d Hnone) as Hdisj.
  exists (fill_row x0). split.
  - unfold result_of. cbn [rows]. apply list_elem_of_fmap. exists x0. split; [done|].
    apply list_elem_of_bind. by exists l.
  - intros c Hc. rewrite fill_row_cell by (intros Ha; by apply Hnone in Ha).
    apply matches_elem in Hx0 as [[-> _]|(r & _ & _ & ->)]; by apply merged_row_cell_left.
Qed.

(** C9, amended: when the standard deviation that the code computes
    from the sensor's non-missing values, of which there are at least
    two, is exactly zero, [detect_anomalies] with [method="zscore"]
    returns a frame that carries every row of the input, and every row
    of that sensor in it has [anomaly_score = 0.0] and
    [is_anomaly = False]. *)
Theorem detect_anomalies_zero_std (data : nat) (sensor_name : string)
    (threshold : float) (st : Store) (d : DataFrame) :
  frames st !! data = Some d →
  "timestamp" ∈ columns d → "sensor" ∈ columns d → "value" ∈ columns d →
  (∀ c, c ∈ anomaly_columns → c ∉ columns d) →
  2 ≤ length (valid_values sensor_name d) →
  (std (valid_values sensor_name d) =? 0)%float = true →
  ∃ res st' D',
    detect_anomalies data sensor_name "zscore" threshold st = Ok (res, st')
    ∧ frames st' !! res = Some D'
    ∧ Forall (λ x, cell x "sensor" = CStr sensor_name →
                   cell x "anomaly_score" = CNum 0 ∧ cell x "is_anomaly" = CBool false)
             (rows D')
    ∧ (∀ l, l ∈ rows d →
         ∃ x, x ∈ rows D' ∧ (∀ c, c ∈ columns d → cell x c = cell l c)
              ∧ (cell l "sensor" = CStr sensor_name →
                 cell x "anomaly_score" = CNum 0 ∧ cell x "is_anomaly" = CBool false))
    ∧ length (rows d) ≤ length (rows D').
Proof.
  intros Hd Hts Hsensor Hvalue Hnone Hlen Hstd.
  destruct (detect_anomalies_run data sensor_name "zscore" threshold st d)
    as (s & st2 & res & st' & _ & _ & _ & _ & Hrun & Hres);
    [done|done|done|done|done|by repeat constructor|done|].
  exists res, st', (result_of "zscore" d s). split; [done|]. split; [done|].
  assert (Forall (λ x, cell x "sensor" = CStr sensor_name →
                       cell x "anomaly_score" = CNum 0 ∧ cell x "is_anomaly" = CBool false)
                 (rows (result_of "zscore" d s))) as Hall.
  { pose proof (detect_anomalies_scores_at_time data sensor_name "zscore" threshold
                  st st' d res Hd (or_introl eq_refl) Hrun) as Hsc.
    rewrite (lookup_total_correct _ _ _ Hres) in Hsc.
    eapply Forall_impl; [exact Hsc|].
    intros x Hx Hsx. destruct (Hx Hsx) as (r & _ & _ & _ & Hr).
    unfold row_score in Hr. cbn [String.eqb Ascii.eqb Bool.eqb] in Hr. cbv zeta in Hr.
    rewrite Hstd in Hr. cbn [fst snd] in Hr. by destruct Hr as [-> ->]. }
  split; [done|]. split.
  - intros l Hl. destruct (result_of_carries "zscore" d s l Hnone Hl) as (x & Hx & Hcells).
    exists x. split; [done|]. split; [done|]. intros Hsl.
    eapply Forall_forall in Hall; [|exact Hx]. apply Hall. by rewrite Hcells.
  - unfold result_of. cbn [rows]. rewrite length_map.
    apply length_bind_ge. intros l. apply matches_nonempty.
Qed.

End detect_outcomes.

(** * Concrete runs

    The functions on small frames, with the library interface
    instantiated by [Simple.pandas]. *)

Definition reading (t : Z) (s : string) (v : float) (q : string) : Row :=
  {[ "timestamp" := CTime t; "sensor" := CStr s; "value" := CNum v; "quality" := CStr q ]}.

Definition new_store : Store := mkStore ∅ [].

(** A heap that holds one frame, at reference 0. *)
Definition store_of (d : DataFrame) : Store := mkStore {[ 0%nat := d ]} [].

(** The batch of the end-to-end scenario of the specification. *)
Definition scenario : DataFrame :=
  mkDF required_columns
    [reading 1 "temp" 20 "good"; reading 1 "temp" 20 "good";
     reading 2 "temp" 95 "bad"; reading 3 "temp" 21 "GOOD"].

(** A batch every row of which the cleaning would drop: a [BAD]
    reading, a reading without value, a reading without time. *)
Definition rejected : DataFrame :=
  mkDF required_columns
    [reading 1 "temp" 20 "bad"; reading 2 "temp" nan "GOOD";
     <["timestamp" := CStr "yesterday"]> (reading 0 "temp" 21 "GOOD")].

(** A batch without any value: no row is left where the share of [BAD]
    readings is computed. *)
Definition no_values : DataFrame :=
  mkDF required_columns [reading 1 "temp" nan "GOOD"; reading 2 "temp" nan "bad"].

Definition one_reading : DataFrame := mkDF required_columns [reading 1 "temp" 20 "GOOD"].

(** A frame without the column [quality]. *)
Definition without_quality : DataFrame :=
  mkDF ["timestamp"; "sensor"; "value"]
    [{[ "timestamp" := CTime 2; "sensor" := CStr "flow"; "value" := CNum 3 ]}].

Definition batches_with_invalid : list PyObj :=
  [PyOther; PyDataFrame (mkDF required_columns []); PyDataFrame one_reading;
   PyDataFrame without_quality].

(** Two readings of one sensor at the same time. *)
Definition same_time : DataFrame :=
  mkDF required_columns [reading 1 "temp" 1 "GOOD"; reading 1 "temp" 2 "GOOD"].

(** A missing value and a value at the same time. *)
Definition same_time_missing : DataFrame :=
  mkDF required_columns
    [reading 1 "temp" nan "GOOD"; reading 1 "temp" 100 "GOOD"; reading 2 "temp" 0 "GOOD"].

(** A sensor that reads the same value, next to another sensor. *)
Definition steady : DataFrame :=
  mkDF required_columns
    [reading 1 "temp" 20 "GOOD"; reading 2 "temp" 20 "GOOD"; reading 2 "flow" 5 "GOOD"].

(** A sensor that reads 0.1 three times. *)
Definition constant : DataFrame :=
  mkDF required_columns
    [reading 1 "temp" 0.1 "GOOD"; reading 2 "temp" 0.1 "GOOD"; reading 3 "temp" 0.1 "GOOD"].

(** A missing value at a time of its own. *)
Definition spaced_missing : DataFrame :=
  mkDF required_columns
    [reading 1 "temp" nan "GOOD"; reading 2 "temp" 100 "GOOD"; reading 3 "temp" 0 "GOOD"].

Lemma well_formed_frame df :
  empty df = false → required_columns ⊆ columns df → well_formed (PyDataFrame df).
Proof. intros. by exists df. Qed.

Lemma anomaly_columns_fresh : ∀ c, c ∈ anomaly_columns → c ∉ required_columns.
Proof.
  intros c [->|[->| ->]]%anomaly_columns_inv Hc;
    repeat (apply elem_of_cons in Hc as [Hc|Hc]; [discriminate|]);
    by apply elem_of_nil in Hc.
Qed.

Lemma steady_unique_keys : unique_keys (rows (sensor_rows "temp" steady)).
Proof.
  change (rows (sensor_rows "temp" steady))
    with [reading 1 "temp" 20 "GOOD"; reading 2 "temp" 20 "GOOD"].
  apply unique_keys_times.
  - repeat constructor; by eexists.
  - change (NoDup [CTime 1; CTime 2]).
    repeat constructor; by intros ?%list_elem_of_In; cbn in *; intuition discriminate.
Qed.

(** ** [ingest_data] *)

Lemma ingest_data_validate_raises_witness :
  [PyDataFrame scenario] ≠ [] ∧ Forall well_formed [PyDataFrame scenario]
  ∧ (∃ r s, r ∈ checked_rows (P := Simple.pandas)
                  (concat (omap valid_batch [PyDataFrame scenario]))
            ∧ cell r "quality" = CStr s)
  ∧ ingest_data (P := Simple.pandas) [PyDataFrame scenario] true new_store
    = Raise format_error.
Proof.
  assert (Forall well_formed [PyDataFrame scenario]) as Hwf.
  { constructor; [|constructor]. by apply well_formed_frame. }
  assert (∃ r s, r ∈ checked_rows (P := Simple.pandas)
                       (concat (omap valid_batch [PyDataFrame scenario]))
                 ∧ cell r "quality" = CStr s) as Hstr.
  { exists (reading 1 "temp" 20 "good"), "good". split; [|done].
    match goal with
    | |- _ ∈ ?l => let l' := eval vm_compute in l in change l with l'
    end.
    by left. }
  split; [done|]. split; [done|]. split; [done|].
  by apply (ingest_data_validate_raises (P := Simple.pandas) [PyDataFrame scenario] new_store).
Defined.


(** C8: on a batch all of whose rows the cleaning would drop, the call
    with [validate=True] raises at the batch evaluation and returns no
    dataset; so it does when no row is left where the share is computed
    and the share is the [NaN] of 0/0. *)
Theorem ingest_data_all_dropped_raises :
  ingest_data (P := Simple.pandas) [PyDataFrame rejected] true new_store
    = Raise format_error
  ∧ ingest_data (P := Simple.pandas) [PyDataFrame no_values] true new_store
    = Raise format_error
  ∧ checked_rows (P := Simple.pandas) (concat [no_values]) = []
  ∧ is_nan (float_of_nat 0 / float_of_nat 0 * 100) = true
  ∧ format_float (P := Simple.pandas) (float_of_nat 0 / float_of_nat 0 * 100) ".2f "
    = Raise format_error.
Proof. repeat split; by vm_compute. Qed.

(** C6, counterexample: the frame without [quality] is not filtered
    out; its row is in the output, without quality, next to the row of
    the well-formed batch, which alone gives one row. *)
Lemma ingest_data_keeps_frame_without_quality :
  match ingest_data (P := Simple.pandas)
          [PyDataFrame one_reading; PyDataFrame without_quality] false new_store,
        ingest_data (P := Simple.pandas) [PyDataFrame one_reading] false new_store with
  | Ok (D2, _), Ok (D1, _) =>
      map (λ r, (cell r "sensor", cell r "quality")) (rows D1) = [(CStr "temp", CStr "GOOD")]
      ∧ map (λ r, (cell r "sensor", cell r "quality")) (rows D2)
        = [(CStr "temp", CStr "GOOD"); (CStr "flow", CNull)]
  | _, _ => False
  end.
Proof. by vm_compute. Qed.

Lemma ingest_data_filters_invalid_witness :
  Exists well_formed batches_with_invalid
  ∧ (∃ D, ingest_data (P := Simple.pandas) batches_with_invalid false new_store
          = Ok (D, new_store)
          ∧ length (rows D)
            = sum_list (map (λ df, length (rows df)) (omap valid_batch batches_with_invalid)))
  ∧ ∀ validate,
      ingest_data (P := Simple.pandas) batches_with_invalid validate new_store =
        ingest_data (P := Simple.pandas)
          (map PyDataFrame (omap valid_batch batches_with_invalid)) validate new_store.
Proof.
  assert (Exists well_formed batches_with_invalid) as Hwf.
  { do 2 apply Exists_cons_tl. apply Exists_cons_hd. by apply well_formed_frame. }
  split; [done|].
  by apply (ingest_data_filters_invalid (P := Simple.pandas) batches_with_invalid new_store).
Defined.

Lemma ingest_data_no_validate_witness :
  ∃ D st',
    ingest_data (P := Simple.pandas) [PyOther; PyDataFrame scenario] false new_store
      = Ok (D, st')
    ∧ st' = new_store
    ∧ columns D = columns (concat (omap valid_batch [PyOther; PyDataFrame scenario]))
    ∧ length (rows D)
      = sum_list (map (λ df, length (rows df))
                      (omap valid_batch [PyOther; PyDataFrame scenario]))
    ∧ rows D ≠ []
    ∧ Forall2 (λ r r0, is_datetime (cell r "timestamp")
                       ∧ ∀ c, c ≠ "timestamp" → cell r c = cell r0 c)
              (rows D) (rows (concat (omap valid_batch [PyOther; PyDataFrame scenario]))).
Proof.
  eexists _, _. split; [by vm_compute|].
  eapply (ingest_data_no_validate (P := Simple.pandas) [PyOther; PyDataFrame scenario]
           new_store).
  by vm_compute.
Defined.

Lemma ingest_data_output_accepted_witness :
  ∃ D st1,
    ingest_data (P := Simple.pandas) [PyOther; PyDataFrame scenario] false new_store
      = Ok (D, st1)
    ∧ ingest_data (P := Simple.pandas) [PyDataFrame D] false new_store = Ok (D, new_store).
Proof.
  eexists _, _. split; [by vm_compute|].
  eapply (ingest_data_output_accepted (P := Simple.pandas) [PyOther; PyDataFrame scenario]
            new_store).
  by vm_compute.
Defined.

(** ** [detect_anomalies] *)

(** C3: [same_time] holds two readings of one sensor at one time, and
    the frame [detect_anomalies] returns for it has four rows, each row
    being merged with both rows of its time and sensor. *)
Theorem detect_anomalies_row_count_same_time :
  match detect_anomalies (P := Simple.pandas) 0 "temp" "zscore" 3 (store_of same_time) with
  | Ok (res, st') =>
      length (rows same_time) = 2 ∧ length (rows (frames st' !!! res)) = 4
      ∧ map (λ r, cell r "value") (rows (frames st' !!! res))
        = [CNum 1; CNum 1; CNum 2; CNum 2]
  | Raise _ => False
  end.
Proof. by vm_compute. Qed.

(** C10: in [same_time_missing] the reading without value shares its
    time with a reading that is flagged; the result holds a row of the
    sensor without value whose [is_anomaly] is true and whose score is
    not zero. *)
Theorem detect_anomalies_missing_value_same_time :
  match detect_anomalies (P := Simple.pandas) 0 "temp" "zscore" 0.5
          (store_of same_time_missing) with
  | Ok (res, st') =>
      map (λ r, (cell r "sensor", isna (cell r "value"), cell r "is_anomaly",
                 isna (cell r "anomaly_score") || (num (cell r "anomaly_score") =? 0)%float,
                 cell r "detection_method"))
          (rows (frames st' !!! res))
      = [(CStr "temp", true, CBool false, true, CStr "zscore");
         (CStr "temp", true, CBool true, false, CStr "zscore");
         (CStr "temp", false, CBool false, true, CStr "zscore");
         (CStr "temp", false, CBool true, false, CStr "zscore");
         (CStr "temp", false, CBool true, false, CStr "zscore")]
  | Raise _ => False
  end.
Proof. by vm_compute. Qed.



(** C9, counterexample: the three readings of [constant] are equal, the
    standard deviation computed from them is not zero, and every row is
    given a score below -0.8 and flagged with the threshold 0.5. *)
Lemma detect_anomalies_constant_flagged :
  (std (Pandas := Simple.pandas) (valid_values "temp" constant) =? 0)%float = false
  ∧ match detect_anomalies (P := Simple.pandas) 0 "temp" "zscore" 0.5 (store_of constant) with
    | Ok (res, st') =>
        map (λ r, (cell r "value", cell r "is_anomaly",
                   (num (cell r "anomaly_score") <? -0.8)%float))
            (rows (frames st' !!! res))
        = [(CNum 0.1, CBool true, true); (CNum 0.1, CBool true, true);
           (CNum 0.1, CBool true, true)]
    | Raise _ => False
    end.
Proof. split; by vm_compute. Qed.

Lemma detect_anomalies_zero_std_witness :
  frames (store_of steady) !! 0%nat = Some steady
  ∧ 2 ≤ length (valid_values "temp" steady)
  ∧ (std (Pandas := Simple.pandas) (valid_values "temp" steady) =? 0)%float = true
  ∧ ∃ res st' D',
      detect_anomalies (P := Simple.pandas) 0 "temp" "zscore" 3 (store_of steady)
        = Ok (res, st')
      ∧ frames st' !! res = Some D'
      ∧ Forall (λ x, cell x "sensor" = CStr "temp" →
                     cell x "anomaly_score" = CNum 0 ∧ cell x "is_anomaly" = CBool false)
               (rows D')
      ∧ (∀ l, l ∈ rows steady →
           ∃ x, x ∈ rows D' ∧ (∀ c, c ∈ columns steady → cell x c = cell l c)
                ∧ (cell l "sensor" = CStr "temp" →
                   cell x "anomaly_score" = CNum 0 ∧ cell x "is_anomaly" = CBool false))
      ∧ length (rows steady) ≤ length (rows D').
Proof.
  assert (2 ≤ length (valid_values "temp" steady)) as Hlen by (vm_compute; lia).
  assert ((std (Pandas := Simple.pandas) (valid_values "temp" steady) =? 0)%float = true)
    as Hstd by by vm_compute.
  split; [done|]. split; [done|]. split; [done|].
  apply (detect_anomalies_zero_std (P := Simple.pandas) 0 "temp" 3 (store_of steady) steady);
    [done|by repeat constructor..|apply anomaly_columns_fresh|done|done].
Defined.

Lemma detect_anomalies_returns_iff_witness :
  frames (store_of steady) !! 0%nat = Some steady
  ∧ ((∃ res st', detect_anomalies (P := Simple.pandas) 0 "temp" "rolling" 3 (store_of steady)
                 = Ok (res, st'))
     ↔ "timestamp" ∈ columns steady ∧ "sensor" ∈ columns steady ∧ "value" ∈ columns steady
       ∧ (∀ c, c ∈ anomaly_columns → c ∉ columns steady)
       ∧ "rolling" ∈ supported_methods
       ∧ 2 ≤ length (valid_values "temp" steady)).
Proof.
  split; [done|].
  by apply (detect_anomalies_returns_iff (P := Simple.pandas) 0 "temp" "rolling" 3
              (store_of steady) steady).
Defined.

Lemma detect_anomalies_exceptions_witness :
  frames (store_of steady) !! 0%nat = Some steady
  ∧ detect_anomalies (P := Simple.pandas) 0 "flow" "zscore" 3 (store_of steady)
    = Raise (ValueError "Insufficient data for anomaly detection for sensor 'flow'")
  ∧ length (valid_values "flow" steady) < 2.
Proof.
  assert (detect_anomalies (P := Simple.pandas) 0 "flow" "zscore" 3 (store_of steady)
          = Raise (ValueError "Insufficient data for anomaly detection for sensor 'flow'"))
    as Hrun by by vm_compute.
  split; [done|]. split; [done|].
  destruct (detect_anomalies_exceptions (P := Simple.pandas) 0 "flow" "zscore" 3
              (store_of steady) steady _ eq_refl Hrun)
    as [[[=] _]|[[[=] _]|[[[=] _]|[[[=] _]|[[_ Hlen]|[[[=]|(k & [=] & _)] _]]]]]].
  exact Hlen.
Defined.

Lemma detect_anomalies_other_sensors_witness :
  ∃ res st',
    frames (store_of steady) !! 0%nat = Some steady
    ∧ detect_anomalies (P := Simple.pandas) 0 "temp" "zscore" 3 (store_of steady)
      = Ok (res, st')
    ∧ Forall (λ x, cell x "sensor" ≠ CStr "temp" →
                   cell x "is_anomaly" = CBool false ∧ cell x "anomaly_score" = CNum 0
                   ∧ cell x "detection_method" = CStr "none")
             (rows (frames st' !!! res)).
Proof.
  eexists _, _. split; [done|]. split; [by vm_compute|].
  apply (detect_anomalies_other_sensors (P := Simple.pandas) 0 "temp" "zscore" 3
           (store_of steady) _ steady); [done|by vm_compute].
Defined.

Lemma detect_anomalies_sensor_rows_witness :
  ∃ res st',
    frames (store_of spaced_missing) !! 0%nat = Some spaced_missing
    ∧ detect_anomalies (P := Simple.pandas) 0 "temp" "rolling" 3 (store_of spaced_missing)
      = Ok (res, st')
    ∧ Forall (λ x, cell x "sensor" = CStr "temp" →
                   (∃ b, cell x "is_anomaly" = CBool b)
                   ∧ (∃ y, cell x "anomaly_score" = CNum y ∧ is_nan y = false)
                   ∧ cell x "detection_method" = CStr "rolling")
             (rows (frames st' !!! res)).
Proof.
  eexists _, _. split; [done|]. split; [by vm_compute|].
  apply (detect_anomalies_sensor_rows (P := Simple.pandas) 0 "temp" "rolling" 3
           (store_of spaced_missing) _ spaced_missing); [done|by vm_compute].
Defined.

Lemma detect_anomalies_row_count_ge_witness :
  ∃ res st',
    frames (store_of same_time) !! 0%nat = Some same_time
    ∧ detect_anomalies (P := Simple.pandas) 0 "temp" "zscore" 3 (store_of same_time)
      = Ok (res, st')
    ∧ length (rows same_time) ≤ length (rows (frames st' !!! res)).
Proof.
  eexists _, _. split; [done|]. split; [by vm_compute|].
  apply (detect_anomalies_row_count_ge (P := Simple.pandas) 0 "temp" "zscore" 3
           (store_of same_time) _ same_time); [done|by vm_compute].
Defined.

Lemma spaced_missing_unique_keys : unique_keys (rows (sensor_rows "temp" spaced_missing)).
Proof.
  change (rows (sensor_rows "temp" spaced_missing)) with (rows spaced_missing).
  apply unique_keys_times.
  - repeat constructor; by eexists.
  - change (NoDup [CTime 1; CTime 2; CTime 3]).
    repeat constructor; by intros ?%list_elem_of_In; cbn in *; intuition discriminate.
Qed.

Lemma detect_anomalies_row_count_unique_keys_witness :
  ∃ res st',
    frames (store_of steady) !! 0%nat = Some steady
    ∧ unique_keys (rows (sensor_rows "temp" steady))
    ∧ detect_anomalies (P := Simple.pandas) 0 "temp" "iqr" 3 (store_of steady) = Ok (res, st')
    ∧ length (rows (frames st' !!! res)) = length (rows steady).
Proof.
  eexists _, _. split; [done|]. split; [apply steady_unique_keys|].
  split; [by vm_compute|].
  apply (detect_anomalies_row_count_unique_keys (P := Simple.pandas) 0 "temp" "iqr" 3
           (store_of steady) _ steady); [done|by vm_compute|apply steady_unique_keys].
Defined.

Lemma detect_anomalies_missing_value_unique_keys_witness :
  ∃ res st',
    frames (store_of spaced_missing) !! 0%nat = Some spaced_missing
    ∧ unique_keys (rows (sensor_rows "temp" spaced_missing))
    ∧ detect_anomalies (P := Simple.pandas) 0 "temp" "zscore" 0.5 (store_of spaced_missing)
      = Ok (res, st')
    ∧ Forall (λ r, cell r "sensor" = CStr "temp" → isna (cell r "value") = true →
                   cell r "is_anomaly" = CBool false ∧ cell r "anomaly_score" = CNum 0
                   ∧ cell r "detection_method" = CStr "zscore")
             (rows (frames st' !!! res)).
Proof.
  eexists _, _. split; [done|]. split; [apply spaced_missing_unique_keys|].
  split; [by vm_compute|].
  apply (detect_anomalies_missing_value_unique_keys (P := Simple.pandas) 0 "temp" "zscore"
           0.5 (store_of spaced_missing) _ spaced_missing);
    [done|by left|by vm_compute|apply spaced_missing_unique_keys].
Defined.

Lemma detect_anomalies_scores_unique_keys_witness :
  ∃ res st',
    frames (store_of spaced_missing) !! 0%nat = Some spaced_missing
    ∧ unique_keys (rows (sensor_rows "temp" spaced_missing))
    ∧ detect_anomalies (P := Simple.pandas) 0 "temp" "zscore" 0.5 (store_of spaced_missing)
      = Ok (res, st')
    ∧ Forall (λ x, cell x "sensor" = CStr "temp" →
        let sc := row_score (P := Simple.pandas) "zscore" (valid_values "temp" spaced_missing)
                    0.5 (cell x "value") in
        cell x "is_anomaly" = CBool sc.2
        ∧ cell x "anomaly_score" = CNum (if is_nan sc.1 then 0 else sc.1))
             (rows (frames st' !!! res)).
Proof.
  eexists _, _. split; [done|]. split; [apply spaced_missing_unique_keys|].
  split; [by vm_compute|].
  apply (detect_anomalies_scores_unique_keys (P := Simple.pandas) 0 "temp" "zscore"
           0.5 (store_of spaced_missing) _ spaced_missing);
    [done|by left|by vm_compute|apply spaced_missing_unique_keys].
Defined.

Lemma detect_anomalies_zero_iqr_witness :
  ∃ res st',
    frames (store_of steady) !! 0%nat = Some steady
    ∧ (quantile (Pandas := Simple.pandas) (valid_values "temp" steady) 0.75
       - quantile (Pandas := Simple.pandas) (valid_values "temp" steady) 0.25 =? 0)%float = true
    ∧ detect_anomalies (P := Simple.pandas) 0 "temp" "iqr" 3 (store_of steady) = Ok (res, st')
    ∧ Forall (λ x, cell x "sensor" = CStr "temp" →
                   cell x "anomaly_score" = CNum 0 ∧ cell x "is_anomaly" = CBool false)
             (rows (frames st' !!! res)).
Proof.
  eexists _, _. split; [done|]. split; [by vm_compute|]. split; [by vm_compute|].
  apply (detect_anomalies_zero_iqr (P := Simple.pandas) 0 "temp" 3 (store_of steady) _ steady);
    [done|by vm_compute|by vm_compute].
Defined.
